(** * Data Analysis MCP server: registry, dispatcher and analysis engine

    A shallow embedding of [src/mcp_servers/data_analysis_server.py]
    ([DataAnalysisMCPServer], its tool catalogue [handle_list_tools] and its
    dispatcher [handle_call_tool]).

    Conventions of the embedding.
    - A pandas [DataFrame] is a list of typed column labels and a list of
      rows; a missing value ([NaN]/[None]) is the cell [Null].
    - Numbers are exact rationals [Q].  Every float is a rational, so the
      comparisons of the code are the comparisons of [Q]; sums, products and
      roundings are the exact ones (no rounding error of float arithmetic),
      and a decimal literal of the code ([0.7], [1.5], [0.95]) is that
      decimal.
    - The pandas methods the code calls ([select_dtypes], [isnull],
      [duplicated], [nunique], [quantile], [describe], comparison and
      boolean indexing) follow their documented behaviour on tables as a
      CSV or JSON file gives them: labelled columns of one type each, every
      row with one cell per column.
    - Python exceptions are values of [exn]; a computation that can raise
      returns an [outcome]; the dispatcher body threads the server state
      ([datasets], [analysis_history]) through [M].
    - The request arguments are read at the JSON types their schema
      declares; any key may be absent ([arguments["k"]] then raises
      [KeyError], [arguments.get("k", d)] gives [d]).
    - What lies outside this file's subject (the file system and the
      clock, file parsing, correlation coefficients, group aggregation,
      conversion of text to numbers, file export) is taken from a
      [World]. *)

From Stdlib Require Import QArith Qround Qabs Sorted Lqa.
From stdpp Require Import gmap strings list.

Local Open Scope string_scope.
Local Open Scope list_scope.

(** ** Python exceptions and fallible computations *)

Inductive exn :=
| KeyError (key : string)
| TypeError (msg : string)
| ValueError (msg : string)
| ZeroDivisionError
| LibraryError (msg : string).

(** [str(e)] *)
Definition str_exn (e : exn) : string :=
  match e with
  | KeyError k => "'" +:+ k +:+ "'"
  | TypeError m => m
  | ValueError m => m
  | ZeroDivisionError => "division by zero"
  | LibraryError m => m
  end.

Inductive outcome (A : Type) :=
| Return (a : A)
| Raise (e : exn).
Arguments Return {A} a.
Arguments Raise {A} e.

#[global] Instance outcome_ret : MRet outcome := fun _ a => Return a.
#[global] Instance outcome_bind : MBind outcome := fun _ _ f c =>
  match c with
  | Return a => f a
  | Raise e => Raise e
  end.
#[global] Instance outcome_fmap : FMap outcome := fun _ _ f c =>
  match c with
  | Return a => Return (f a)
  | Raise e => Raise e
  end.

(** ** Tabular data *)

Inductive dtype := Int64 | Float64 | BoolT | Object.

Inductive cell :=
| Null
| Num (q : Q)
| Bool (b : bool)
| Str (s : string).

Record DataFrame := {
  df_columns : list (string * dtype);
  df_rows : list (list cell)
}.

Definition columns (df : DataFrame) : list string := map fst (df_columns df).
Definition dtypes (df : DataFrame) : list dtype := map snd (df_columns df).

(** [len(df)] and [df.shape] *)
Definition len (df : DataFrame) : nat := length (df_rows df).
Definition shape (df : DataFrame) : nat * nat :=
  (length (df_rows df), length (df_columns df)).

(** [df.copy()]: a frame is a value, the copy is the same value. *)
Definition copy (df : DataFrame) : DataFrame := df.

Definition is_number (t : dtype) : bool :=
  match t with
  | Int64 | Float64 => true
  | _ => false
  end.

(** position of a label in [df.columns] *)
Fixpoint index_of (name : string) (names : list string) : option nat :=
  match names with
  | [] => None
  | n :: rest =>
      if String.eqb name n then Some 0%nat
      else S <$> index_of name rest
  end.

(** [col in df.columns] *)
Definition has_column (df : DataFrame) (col : string) : bool :=
  match index_of col (columns df) with
  | Some _ => true
  | None => false
  end.

(** the values of the column at position [i], top to bottom *)
Definition col_values (df : DataFrame) (i : nat) : list cell :=
  map (fun r => nth i r Null) (df_rows df).

(** the frame restricted to the columns at positions [idxs], in that order *)
Definition take_cols (df : DataFrame) (idxs : list nat) : DataFrame :=
  {| df_columns := map (fun i => nth i (df_columns df) ("", Object)) idxs;
     df_rows := map (fun r => map (fun i => nth i r Null) idxs) (df_rows df) |}.

Fixpoint number_positions (i : nat) (ts : list dtype) : list nat :=
  match ts with
  | [] => []
  | t :: rest =>
      if is_number t then i :: number_positions (S i) rest
      else number_positions (S i) rest
  end.

(** [df.select_dtypes(include=[np.number])] *)
Definition select_dtypes_number (df : DataFrame) : DataFrame :=
  take_cols df (number_positions 0 (dtypes df)).

(** [df[columns]] for a list of labels: [KeyError] on an unknown label *)
Fixpoint positions_of (names : list string) (all : list string) : outcome (list nat) :=
  match names with
  | [] => Return []
  | n :: rest =>
      match index_of n all with
      | None => Raise (KeyError n)
      | Some i => cons i <$> positions_of rest all
      end
  end.

Definition getitem_columns (df : DataFrame) (names : list string) : outcome DataFrame :=
  idxs ← positions_of names (columns df); mret (take_cols df idxs).

(** [df[mask]]: the rows whose mask entry is [True] *)
Fixpoint getitem_mask (rs : list (list cell)) (mask : list bool) : list (list cell) :=
  match rs, mask with
  | r :: rs', b :: mask' =>
      if b then r :: getitem_mask rs' mask' else getitem_mask rs' mask'
  | _, _ => []
  end.

Definition is_null (c : cell) : bool :=
  match c with Null => true | _ => false end.

(** [df.isnull().sum()]: null count per column, in column order *)
Definition null_count (df : DataFrame) (i : nat) : nat :=
  length (List.filter is_null (col_values df i)).

Definition isnull_sum (df : DataFrame) : list nat :=
  map (null_count df) (seq 0 (length (df_columns df))).

(** equality of two cells as pandas hashes them: missing equals missing,
    numbers by value *)
Definition cell_eqb (a b : cell) : bool :=
  match a, b with
  | Null, Null => true
  | Num x, Num y => Qeq_bool x y
  | Bool x, Bool y => Bool.eqb x y
  | Str x, Str y => String.eqb x y
  | _, _ => false
  end.

Fixpoint row_eqb (r1 r2 : list cell) : bool :=
  match r1, r2 with
  | [], [] => true
  | a :: r1', b :: r2' => cell_eqb a b && row_eqb r1' r2'
  | _, _ => false
  end.

(** [df.duplicated()] with the default [keep='first']: a row is marked
    when an equal row was met before it *)
Fixpoint duplicated_from (seen : list (list cell)) (rs : list (list cell)) : list bool :=
  match rs with
  | [] => []
  | r :: rs' =>
      existsb (row_eqb r) seen :: duplicated_from (seen ++ [r]) rs'
  end.

Definition duplicated (df : DataFrame) : list bool := duplicated_from [] (df_rows df).

Definition count_true (bs : list bool) : nat := length (List.filter id bs).

(** [df[col].nunique()]: distinct non-missing values *)
Fixpoint distinct_cells (seen : list cell) (cs : list cell) : list cell :=
  match cs with
  | [] => seen
  | c :: cs' =>
      if is_null c || existsb (cell_eqb c) seen then distinct_cells seen cs'
      else distinct_cells (seen ++ [c]) cs'
  end.

Definition nunique (df : DataFrame) (i : nat) : nat :=
  length (distinct_cells [] (col_values df i)).

(** ** Numbers: quantiles and rounding *)

(** a number of a numeric column; [None] is [NaN] *)
Definition cell_num (c : cell) : option Q :=
  match c with
  | Num q => Some q
  | _ => None
  end.

Fixpoint insert_sorted (x : Q) (l : list Q) : list Q :=
  match l with
  | [] => [x]
  | y :: l' => if Qle_bool x y then x :: l else y :: insert_sorted x l'
  end.

Definition sort_Q (l : list Q) : list Q := fold_right insert_sorted [] l.

(** [Series.quantile(p)]: missing values are dropped, the result is
    interpolated linearly between the two order statistics around
    position [p * (n - 1)]; [NaN] when nothing is left *)
Definition quantile (cs : list cell) (p : Q) : option Q :=
  let xs := sort_Q (omap cell_num cs) in
  match xs with
  | [] => None
  | x0 :: _ =>
      let n := length xs in
      let h := (p * inject_Z (Z.of_nat (n - 1)))%Q in
      let lo := Z.to_nat (Qfloor h) in
      let frac := (h - inject_Z (Qfloor h))%Q in
      let a := nth lo xs x0 in
      let b := nth (Nat.min (S lo) (n - 1)) xs x0 in
      Some (a + frac * (b - a))%Q
  end.

(** float arithmetic with [NaN] *)
Definition nan_sub (a b : option Q) : option Q :=
  match a, b with Some x, Some y => Some (x - y)%Q | _, _ => None end.
Definition nan_add (a b : option Q) : option Q :=
  match a, b with Some x, Some y => Some (x + y)%Q | _, _ => None end.
Definition nan_scale (k : Q) (a : option Q) : option Q :=
  match a with Some x => Some (k * x)%Q | None => None end.

(** [x < y] on floats: false as soon as one side is [NaN] *)
Definition nan_lt (a b : option Q) : bool :=
  match a, b with
  | Some x, Some y => negb (Qle_bool y x)
  | _, _ => false
  end.

(** rounding to [d] decimals, ties to the even neighbour ([numpy.round]) *)
Definition round_half_even (d : nat) (q : Q) : Q :=
  let scale := inject_Z (10 ^ Z.of_nat d) in
  let y := (q * scale)%Q in
  let f := Qfloor y in
  let r := (y - inject_Z f)%Q in
  let k := match (r ?= 1 # 2)%Q with
           | Lt => f
           | Gt => (f + 1)%Z
           | Eq => if Z.even f then f else (f + 1)%Z
           end in
  (inject_Z k / scale)%Q.

(** ** Comparison of a column with a request value *)

Inductive jvalue :=
| JNull
| JNum (q : Q)
| JBool (b : bool)
| JStr (s : string).

Inductive cmp_op := OpEq | OpNe | OpGt | OpLt | OpGe | OpLe.

Definition cmp_Q (op : cmp_op) (x y : Q) : bool :=
  match op with
  | OpEq => Qeq_bool x y
  | OpNe => negb (Qeq_bool x y)
  | OpGt => negb (Qle_bool x y)
  | OpLt => negb (Qle_bool y x)
  | OpGe => Qle_bool y x
  | OpLe => Qle_bool x y
  end.

Definition cmp_string (op : cmp_op) (x y : string) : bool :=
  match op with
  | OpEq => String.eqb x y
  | OpNe => negb (String.eqb x y)
  | OpGt => String.ltb y x
  | OpLt => String.ltb x y
  | OpGe => String.leb y x
  | OpLe => String.leb x y
  end.

Definition bool_Q (b : bool) : Q := if b then 1%Q else 0%Q.

(** the outcome of an operator between values that have no order *)
Definition invalid_comparison (op : cmp_op) : outcome bool :=
  match op with
  | OpEq => Return false
  | OpNe => Return true
  | _ => Raise (TypeError "'<' not supported between instances of 'str' and 'int'")
  end.

(** one element against the scalar: a missing element compares false
    (true for [!=]); numbers and booleans by value; strings by code
    point order; a string against a number has no order *)
Definition compare_cell (op : cmp_op) (c : cell) (v : jvalue) : outcome bool :=
  match c, v with
  | Null, _ | _, JNull => Return (match op with OpNe => true | _ => false end)
  | Num x, JNum y => Return (cmp_Q op x y)
  | Num x, JBool y => Return (cmp_Q op x (bool_Q y))
  | Bool x, JNum y => Return (cmp_Q op (bool_Q x) y)
  | Bool x, JBool y => Return (cmp_Q op (bool_Q x) (bool_Q y))
  | Str x, JStr y => Return (cmp_string op x y)
  | _, _ => invalid_comparison op
  end.

Fixpoint compare_cells (op : cmp_op) (cs : list cell) (v : jvalue) : outcome (list bool) :=
  match cs with
  | [] => Return []
  | c :: cs' =>
      b ← compare_cell op c v;
      bs ← compare_cells op cs' v;
      mret (b :: bs)
  end.

(** [df[col] <op> val]: a numeric or boolean column against a string is
    decided for the column as a whole, every other case element by
    element *)
Definition compare_column (t : dtype) (cs : list cell) (op : cmp_op) (v : jvalue)
  : outcome (list bool) :=
  match t, v with
  | (Int64 | Float64 | BoolT), JStr _ =>
      b ← invalid_comparison op; mret (map (fun _ => b) cs)
  | _, _ => compare_cells op cs v
  end.

(** ** Descriptive statistics *)

Definition Qsum (l : list Q) : Q := fold_right Qplus 0%Q l.

Definition mean (xs : list Q) : option Q :=
  match xs with
  | [] => None
  | _ => Some (Qsum xs / inject_Z (Z.of_nat (length xs)))%Q
  end.

(** the square of [Series.std()] (sample variance, [ddof=1]); the
    standard deviation itself is its square root *)
Definition variance (xs : list Q) : option Q :=
  match mean xs with
  | Some m =>
      if (length xs <=? 1)%nat then None
      else Some (Qsum (map (fun x => (x - m) * (x - m))%Q xs)
                 / inject_Z (Z.of_nat (length xs - 1)))%Q
  | None => None
  end.

Fixpoint count_cell (c : cell) (cs : list cell) : nat :=
  match cs with
  | [] => 0
  | x :: cs' => (if cell_eqb c x then 1 else 0) + count_cell c cs'
  end.

(** the most frequent non-missing value, the first met among equals *)
Definition top_freq (cs : list cell) : option (cell * nat) :=
  fold_left (fun best c =>
               let k := count_cell c cs in
               match best with
               | Some (_, kb) => if (kb <? k)%nat then Some (c, k) else best
               | None => Some (c, k)
               end)
            (distinct_cells [] cs) None.

Inductive column_stats :=
| NumericStats (count : nat) (mean_ : option Q) (std_squared : option Q)
    (min_ : option Q) (percentiles : list (Q * option Q)) (max_ : option Q)
| ObjectStats (count unique : nat) (top : option (cell * nat)).

Definition describe_numeric (percentiles : list Q) (cs : list cell) : column_stats :=
  let xs := omap cell_num cs in
  NumericStats (length xs) (mean xs) (variance xs)
    (head (sort_Q xs))
    (map (fun p => (p, quantile cs p)) percentiles)
    (last (sort_Q xs)).

Definition describe_object (cs : list cell) : column_stats :=
  ObjectStats (length (List.filter (fun c => negb (is_null c)) cs))
    (length (distinct_cells [] cs)) (top_freq cs).

Definition describe_columns (f : list cell → column_stats) (df : DataFrame)
  : list (string * column_stats) :=
  map (fun i => (nth i (columns df) "", f (col_values df i)))
      (seq 0 (length (df_columns df))).

(** [df.describe(percentiles=...)]: a frame without columns is refused;
    of a frame with numeric and other columns only the numeric ones are
    analysed; a frame without any numeric column has all its columns
    analysed as categories *)
Definition describe (percentiles : list Q) (df : DataFrame)
  : outcome (list (string * column_stats)) :=
  match df_columns df with
  | [] => Raise (ValueError "Cannot describe a DataFrame without columns")
  | _ =>
      let numeric := select_dtypes_number df in
      match df_columns numeric with
      | [] => Return (describe_columns describe_object df)
      | _ => Return (describe_columns (describe_numeric percentiles) numeric)
      end
  end.

(** ** Server state *)

Inductive HistoryRecord :=
| LoadRecord (dataset timestamp : string) (shape_ : nat * nat) (columns_ : list string)
| InsightsRecord (dataset focus timestamp : string).

Record Server := {
  datasets : gmap string DataFrame;
  analysis_history : list HistoryRecord
}.

(** computations of the dispatcher: they read and update the server and
    may raise; what was written before an exception stays written *)
Definition M (A : Type) : Type := Server → outcome A * Server.

#[global] Instance M_ret : MRet M := fun _ a s => (Return a, s).
#[global] Instance M_bind : MBind M := fun _ _ f c s =>
  match c s with
  | (Return a, s') => f a s'
  | (Raise e, s') => (Raise e, s')
  end.

Definition lift {A} (o : outcome A) : M A := fun s => (o, s).

(** [self.datasets.get(name)] *)
Definition lookup_dataset (name : string) : M (option DataFrame) :=
  fun s => (Return (datasets s !! name), s).

(** [self.datasets[name] = df] *)
Definition store_dataset (name : string) (df : DataFrame) : M unit :=
  fun s => (Return tt,
            {| datasets := <[name := df]> (datasets s);
               analysis_history := analysis_history s |}).

(** [self.analysis_history.append(record)] *)
Definition history_append (r : HistoryRecord) : M unit :=
  fun s => (Return tt,
            {| datasets := datasets s;
               analysis_history := analysis_history s ++ [r] |}).

(** ** Requests *)

Record condition := {
  c_column : option string;
  c_operator : option string;
  c_value : option jvalue
}.

Record arguments := {
  a_path : option string;
  a_name : option string;
  a_delimiter : option string;
  a_columns : option (list string);
  a_include_percentiles : option bool;
  a_method : option string;
  a_threshold : option Q;
  a_group_by : option string;
  a_agg_columns : option (list string);
  a_operations : option (list string);
  a_focus : option string;
  a_format : option string;
  a_output_path : option string;
  a_conditions : option (list condition);
  a_new_name : option string
}.

(** [arguments[key]] *)
Definition getitem {A} (key : string) (field : option A) : M A :=
  match field with
  | Some a => mret a
  | None => lift (Raise (KeyError key))
  end.

(** [x in [...]] on strings *)
Definition str_in (x : string) (l : list string) : bool := existsb (String.eqb x) l.

(** [path.endswith(suffix)] *)
Definition endswith (s suffix : string) : bool :=
  String.prefix (String.rev suffix) (String.rev s).

(** ** The tool catalogue *)

Inductive jdefault :=
| DefStr (s : string)
| DefBool (b : bool)
| DefNum (q : Q)
| DefStrs (l : list string).

Record Property := {
  p_name : string;
  p_type : string;
  p_enum : option (list string);
  p_default : option jdefault
}.

Record Tool := {
  t_name : string;
  t_properties : list Property;
  t_required : list string
}.

Definition prop (n t : string) : Property :=
  {| p_name := n; p_type := t; p_enum := None; p_default := None |}.

Definition handle_list_tools : list Tool := [
  {| t_name := "load_dataset";
     t_properties := [prop "path" "string"; prop "name" "string";
       {| p_name := "delimiter"; p_type := "string"; p_enum := None;
          p_default := Some (DefStr ",") |}];
     t_required := ["path"; "name"] |};
  {| t_name := "dataset_info";
     t_properties := [prop "name" "string"];
     t_required := ["name"] |};
  {| t_name := "calculate_statistics";
     t_properties := [prop "name" "string"; prop "columns" "array";
       {| p_name := "include_percentiles"; p_type := "boolean"; p_enum := None;
          p_default := Some (DefBool true) |}];
     t_required := ["name"] |};
  {| t_name := "find_correlations";
     t_properties := [prop "name" "string";
       {| p_name := "method"; p_type := "string";
          p_enum := Some ["pearson"; "spearman"; "kendall"];
          p_default := Some (DefStr "pearson") |};
       {| p_name := "threshold"; p_type := "number"; p_enum := None;
          p_default := Some (DefNum (1 # 2)) |}];
     t_required := ["name"] |};
  {| t_name := "group_analysis";
     t_properties := [prop "name" "string"; prop "group_by" "string";
       prop "agg_columns" "array";
       {| p_name := "operations"; p_type := "array"; p_enum := None;
          p_default := Some (DefStrs ["mean"; "count"]) |}];
     t_required := ["name"; "group_by"] |};
  {| t_name := "data_quality_check";
     t_properties := [prop "name" "string"];
     t_required := ["name"] |};
  {| t_name := "generate_insights";
     t_properties := [prop "name" "string";
       {| p_name := "focus"; p_type := "string";
          p_enum := Some ["overview"; "outliers"; "patterns"; "recommendations"];
          p_default := Some (DefStr "overview") |}];
     t_required := ["name"] |};
  {| t_name := "export_analysis";
     t_properties := [prop "name" "string";
       {| p_name := "format"; p_type := "string";
          p_enum := Some ["json"; "csv"; "html"];
          p_default := Some (DefStr "json") |};
       prop "output_path" "string"];
     t_required := ["name"; "output_path"] |};
  {| t_name := "filter_data";
     t_properties := [prop "name" "string"; prop "conditions" "array";
       prop "new_name" "string"];
     t_required := ["name"; "conditions"; "new_name"] |}
].

Definition find_tool (name : string) : option Tool :=
  List.find (fun t => String.eqb (t_name t) name) handle_list_tools.

Definition find_property (t : Tool) (name : string) : option Property :=
  List.find (fun p => String.eqb (p_name p) name) (t_properties t).

(** the [enum] keyword of a declared property: a string is valid when the
    property lists no enumeration or lists that string *)
Definition enum_accepts (p : Property) (v : string) : bool :=
  match p_enum p with
  | None => true
  | Some allowed => str_in v allowed
  end.

(** validity of a string value for property [pname] of tool [tool] under
    the declared schema; [None] when the tool or the property is not
    declared *)
Definition schema_accepts (tool pname v : string) : option bool :=
  t ← find_tool tool; p ← find_property t pname; Some (enum_accepts p v).

(** ** What the server asks of its environment *)

Record CorrMatrix := {
  cm_columns : list string;
  cm_values : list (list (option Q))
}.

Inductive export_payload :=
| CsvTable (df : DataFrame)
| JsonReport (dataset_name : string) (df : DataFrame) (export_timestamp : string)
| HtmlReport (dataset_name : string) (df : DataFrame).

Record World := {
  PANDAS_AVAILABLE : bool;
  (** [os.path.exists(path)] *)
  os_path_exists : string → bool;
  (** [pd.read_csv(path, delimiter=delimiter)] and [pd.read_json(path)] *)
  pd_read_csv : string → string → outcome DataFrame;
  pd_read_json : string → outcome DataFrame;
  (** [datetime.now().isoformat()] *)
  datetime_now : string;
  (** [df.memory_usage(deep=True).sum()], in bytes *)
  memory_usage : DataFrame → Q;
  (** [numeric_df.corr(method=method)]: a square matrix over the columns
      of the frame, [None] for [NaN] *)
  df_corr : DataFrame → string → outcome CorrMatrix;
  (** [df.groupby(group_by)[cols].agg(operations).to_string()] *)
  groupby_agg : DataFrame → string → list string → list string → outcome string;
  (** [pd.to_numeric(df[col])] *)
  pd_to_numeric : list cell → outcome unit;
  (** [Path(output_path).parent.mkdir(parents=True, exist_ok=True)] *)
  mkdir_parent : string → outcome unit;
  (** writing the export file *)
  write_file : string → export_payload → outcome unit
}.

(** ** Results *)

Record Info := {
  i_name : string;
  i_shape : nat * nat;
  i_names : list string;
  i_types : list (string * dtype);
  i_null_counts : list (string * nat);
  i_unique_counts : list (string * nat);
  i_memory_usage_mb : Q;
  i_sample_data : list (list cell)
}.

Record corr_pair := {
  column1 : string;
  column2 : string;
  correlation : Q;
  strength : string
}.

Inductive issue :=
| MostlyMissing (col : string) (missing_pct : Q)
| OneUniqueValue (col : string)
| AllUniqueValues (col : string).

Record QualityReport := {
  q_dataset : string;
  total_rows : nat;
  total_columns : nat;
  columns_with_missing : list string;
  missing_percentages : list (string * option Q);
  total_missing_values : nat;
  duplicate_rows : nat;
  duplicate_percentage : option Q;
  data_types : list (string * dtype);
  unique_values : list (string * nat);
  potential_issues : list issue
}.

Inductive insight :=
| OverviewHeader
| OverviewSize (records features : nat)
| OverviewTypes (counts : list (dtype * nat))
| OverviewNumeric (n : nat)
| OutlierHeader
| OutlierLine (col : string) (outliers : nat)
| PatternHeader
| HighUniqueness (col : string) (unique_ratio : Q)
| LowUniqueness (col : string) (unique_ratio : Q)
| RecommendationHeader
| AddressMissing (missing_cols : list string)
| SuggestCorrelation
| SuggestFeatureSelection
| SuggestNumeric (col : string).

(** the one [TextContent] a call answers with, by the shape of its text *)
Inductive TextContent :=
| PandasRequired
| FileNotFound (path : string)
| UnsupportedFormat
| DatasetNotFound (name : string)
| DatasetNotLoaded (name : string)
| ColumnNotFound (col : string)
| UnknownTool (name : string)
| ErrorText (e : exn)
| Loaded (name : string) (shape_ : nat * nat) (columns_ : list string) (memory_kb : Q)
| DatasetInformation (info : Info)
| Statistics (name : string) (stats : list (string * column_stats))
| Correlations (method name : string) (threshold : Q)
    (pairs : list corr_pair) (matrix : CorrMatrix)
| GroupAnalysis (name group_by table : string)
| DataQuality (report : QualityReport)
| Insights (name : string) (lines : list insight)
| Exported (name output_path format : string)
| Filtered (name new_name : string) (original_shape filtered_shape : nat * nat)
    (filters : nat).

(** the texts that report a failure *)
Definition text_of_failure (r : TextContent) : option string :=
  match r with
  | PandasRequired =>
      Some "Error: pandas is required for data analysis features. Please install pandas."
  | FileNotFound path => Some ("File not found: " +:+ path)
  | UnsupportedFormat => Some "Unsupported file format. Use CSV or JSON."
  | DatasetNotFound name => Some ("Dataset '" +:+ name +:+ "' not found.")
  | DatasetNotLoaded name => Some ("Dataset '" +:+ name +:+ "' not found. Load it first.")
  | ColumnNotFound col => Some ("Column '" +:+ col +:+ "' not found in dataset.")
  | UnknownTool name => Some ("Unknown tool: " +:+ name)
  | ErrorText e => Some ("Error: " +:+ str_exn e)
  | _ => None
  end.

Definition is_error (r : TextContent) : bool :=
  match text_of_failure r with
  | Some _ => true
  | None => false
  end.

(** ** The tools *)

Section Tools.
Variable w : World.

(** [load_dataset] *)
Definition load_finish (dataset_name : string) (df : DataFrame) : M TextContent :=
  _ ← store_dataset dataset_name df;
  _ ← history_append
        (LoadRecord dataset_name (datetime_now w) (shape df) (columns df));
  mret (Loaded dataset_name (shape df) (columns df) (memory_usage w df / 1024)%Q).

Definition load_dataset (args : arguments) : M TextContent :=
  path ← getitem "path" (a_path args);
  dataset_name ← getitem "name" (a_name args);
  let delimiter := default "," (a_delimiter args) in
  if negb (os_path_exists w path) then mret (FileNotFound path)
  else if endswith path ".csv" then
    df ← lift (pd_read_csv w path delimiter); load_finish dataset_name df
  else if endswith path ".json" then
    df ← lift (pd_read_json w path); load_finish dataset_name df
  else mret UnsupportedFormat.

(** [dataset_info] *)
Definition dataset_info (args : arguments) : M TextContent :=
  dataset_name ← getitem "name" (a_name args);
  found ← lookup_dataset dataset_name;
  match found with
  | None => mret (DatasetNotLoaded dataset_name)
  | Some df =>
      let positions := seq 0 (length (df_columns df)) in
      mret (DatasetInformation
              {| i_name := dataset_name;
                 i_shape := shape df;
                 i_names := columns df;
                 i_types := df_columns df;
                 i_null_counts := zip (columns df) (isnull_sum df);
                 i_unique_counts := zip (columns df) (map (nunique df) positions);
                 i_memory_usage_mb := (memory_usage w df / (1024 * 1024))%Q;
                 i_sample_data := take 5 (df_rows df) |})
  end.

(** [calculate_statistics] *)

(** [df[columns] if columns else df.select_dtypes(include=[np.number])]:
    an absent and an empty list are both false *)
Definition select_subset (df : DataFrame) (columns_ : option (list string))
  : outcome DataFrame :=
  match columns_ with
  | Some (c :: cs) => getitem_columns df (c :: cs)
  | _ => Return (select_dtypes_number df)
  end.

Definition calculate_statistics (args : arguments) : M TextContent :=
  dataset_name ← getitem "name" (a_name args);
  let columns_ := a_columns args in
  let include_percentiles := default true (a_include_percentiles args) in
  found ← lookup_dataset dataset_name;
  match found with
  | None => mret (DatasetNotFound dataset_name)
  | Some df =>
      df_subset ← lift (select_subset df columns_);
      stats ← lift (if include_percentiles
                    then describe [1 # 4; 1 # 2; 3 # 4; 9 # 10; 19 # 20]%Q df_subset
                    else describe [1 # 4; 1 # 2; 3 # 4]%Q df_subset);
      mret (Statistics dataset_name stats)
  end.

(** [find_correlations] *)
Definition iloc (m : CorrMatrix) (i j : nat) : option Q :=
  nth j (nth i (cm_values m) []) None.

(** the index pairs of the two nested [range] loops, in loop order *)
Definition index_pairs (n : nat) : list (nat * nat) :=
  i ← seq 0 n; j ← seq (S i) (n - S i); [(i, j)].

Definition high_corr_entry (m : CorrMatrix) (threshold : Q) (ij : nat * nat)
  : option corr_pair :=
  match iloc m ij.1 ij.2 with
  | Some corr_val =>
      if Qle_bool threshold (Qabs corr_val) then
        Some {| column1 := nth ij.1 (cm_columns m) "";
                column2 := nth ij.2 (cm_columns m) "";
                correlation := round_half_even 3 corr_val;
                strength := if Qle_bool (7 # 10) (Qabs corr_val)
                            then "Strong" else "Moderate" |}
      else None
  | None => None
  end.

Definition high_corr (m : CorrMatrix) (threshold : Q) : list corr_pair :=
  omap (high_corr_entry m threshold) (index_pairs (length (cm_columns m))).

(** [sorted(high_corr, key=lambda x: abs(x["correlation"]), reverse=True)]:
    a stable sort, entries of equal key keep their order *)
Fixpoint insert_by_key (p : corr_pair) (l : list corr_pair) : list corr_pair :=
  match l with
  | [] => [p]
  | q :: l' =>
      if Qle_bool (Qabs (correlation q)) (Qabs (correlation p)) then p :: l
      else q :: insert_by_key p l'
  end.

Definition sorted_reverse (l : list corr_pair) : list corr_pair :=
  fold_right insert_by_key [] l.

(** [corr_matrix.round(3)] *)
Definition round_matrix (m : CorrMatrix) : CorrMatrix :=
  {| cm_columns := cm_columns m;
     cm_values := map (map (fmap (round_half_even 3))) (cm_values m) |}.

Definition find_correlations (args : arguments) : M TextContent :=
  dataset_name ← getitem "name" (a_name args);
  let method := default "pearson" (a_method args) in
  let threshold := default (1 # 2)%Q (a_threshold args) in
  found ← lookup_dataset dataset_name;
  match found with
  | None => mret (DatasetNotFound dataset_name)
  | Some df =>
      let numeric_df := select_dtypes_number df in
      corr_matrix ← lift (df_corr w numeric_df method);
      mret (Correlations method dataset_name threshold
              (sorted_reverse (high_corr corr_matrix threshold))
              (round_matrix corr_matrix))
  end.

(** [group_analysis] *)
Definition group_analysis (args : arguments) : M TextContent :=
  dataset_name ← getitem "name" (a_name args);
  group_by ← getitem "group_by" (a_group_by args);
  let agg_columns := a_agg_columns args in
  let operations := default ["mean"; "count"] (a_operations args) in
  found ← lookup_dataset dataset_name;
  match found with
  | None => mret (DatasetNotFound dataset_name)
  | Some df =>
      if negb (has_column df group_by) then mret (ColumnNotFound group_by)
      else
        table ← lift (match agg_columns with
                      | Some (c :: cs) => groupby_agg w df group_by (c :: cs) operations
                      | _ => groupby_agg w df group_by
                               (columns (select_dtypes_number df)) operations
                      end);
        mret (GroupAnalysis dataset_name group_by table)
  end.

(** [data_quality_check] *)
Definition percentage (k n : nat) : option Q :=
  if (n =? 0)%nat then None
  else Some (inject_Z (Z.of_nat k) / inject_Z (Z.of_nat n) * 100)%Q.

Definition column_issues (df : DataFrame) (i : nat) : list issue :=
  let col := nth i (columns df) "" in
  (if (0 <? null_count df i)%nat then
     match percentage (null_count df i) (len df) with
     | Some missing_pct =>
         if negb (Qle_bool missing_pct 50) then [MostlyMissing col missing_pct] else []
     | None => []
     end
   else [])
  ++ (if (nunique df i =? 1)%nat then [OneUniqueValue col] else [])
  ++ (if (nunique df i =? len df)%nat then [AllUniqueValues col] else []).

Definition quality_report (dataset_name : string) (df : DataFrame) : QualityReport :=
  let positions := seq 0 (length (df_columns df)) in
  {| q_dataset := dataset_name;
     total_rows := len df;
     total_columns := length (columns df);
     columns_with_missing :=
       map (fun i => nth i (columns df) "")
           (List.filter (fun i => existsb is_null (col_values df i)) positions);
     missing_percentages :=
       zip (columns df)
           (map (fun k => round_half_even 2 <$> percentage k (len df)) (isnull_sum df));
     total_missing_values := list_sum (isnull_sum df);
     duplicate_rows := count_true (duplicated df);
     duplicate_percentage :=
       round_half_even 2 <$> percentage (count_true (duplicated df)) (len df);
     data_types := df_columns df;
     unique_values := zip (columns df) (map (nunique df) positions);
     potential_issues := flat_map (column_issues df) positions |}.

Definition data_quality_check (args : arguments) : M TextContent :=
  dataset_name ← getitem "name" (a_name args);
  found ← lookup_dataset dataset_name;
  match found with
  | None => mret (DatasetNotFound dataset_name)
  | Some df => mret (DataQuality (quality_report dataset_name df))
  end.

(** [generate_insights] *)

(** [df.dtypes.value_counts()]: the types met, most frequent first, equal
    counts in the order the types are met *)
Definition dtype_eqb (a b : dtype) : bool :=
  match a, b with
  | Int64, Int64 | Float64, Float64 | BoolT, BoolT | Object, Object => true
  | _, _ => false
  end.

Definition count_dtype (t : dtype) (ts : list dtype) : nat :=
  length (List.filter (dtype_eqb t) ts).

Definition distinct_dtypes (ts : list dtype) : list dtype :=
  fold_left (fun seen t => if existsb (dtype_eqb t) seen then seen else seen ++ [t])
            ts [].

Fixpoint insert_count (p : dtype * nat) (l : list (dtype * nat)) : list (dtype * nat) :=
  match l with
  | [] => [p]
  | q :: l' => if (q.2 <=? p.2)%nat then p :: l else q :: insert_count p l'
  end.

Definition value_counts (ts : list dtype) : list (dtype * nat) :=
  fold_right insert_count []
    (map (fun t => (t, count_dtype t ts)) (distinct_dtypes ts)).

Definition overview_lines (df : DataFrame) : list insight :=
  let numeric_cols := columns (select_dtypes_number df) in
  [OverviewHeader; OverviewSize (len df) (length (columns df));
   OverviewTypes (value_counts (dtypes df))]
  ++ (if (0 <? length numeric_cols)%nat
      then [OverviewNumeric (length numeric_cols)] else []).

(** the rows counted as outliers of one column: those below
    [Q1 - 1.5*IQR] or above [Q3 + 1.5*IQR] *)
Definition outlier_count (cs : list cell) : nat :=
  let Q1 := quantile cs (1 # 4) in
  let Q3 := quantile cs (3 # 4) in
  let IQR := nan_sub Q3 Q1 in
  length (List.filter
            (fun c => nan_lt (cell_num c) (nan_sub Q1 (nan_scale (3 # 2) IQR))
                      || nan_lt (nan_add Q3 (nan_scale (3 # 2) IQR)) (cell_num c))
            cs).

Definition outlier_line (numeric_df : DataFrame) (i : nat) : list insight :=
  let outliers := outlier_count (col_values numeric_df i) in
  if (0 <? outliers)%nat
  then [OutlierLine (nth i (columns numeric_df) "") outliers] else [].

Definition outlier_lines (df : DataFrame) : list insight :=
  let numeric_df := select_dtypes_number df in
  OutlierHeader
  :: flat_map (outlier_line numeric_df) (seq 0 (length (df_columns numeric_df))).

(** [df[col].nunique() / len(df)] on Python integers *)
Definition unique_ratio (df : DataFrame) (i : nat) : outcome Q :=
  if (len df =? 0)%nat then Raise ZeroDivisionError
  else Return (inject_Z (Z.of_nat (nunique df i)) / inject_Z (Z.of_nat (len df)))%Q.

Fixpoint pattern_loop (df : DataFrame) (positions : list nat) : outcome (list insight) :=
  match positions with
  | [] => Return []
  | i :: rest =>
      r ← unique_ratio df i;
      let col := nth i (columns df) "" in
      let line := if negb (Qle_bool r (19 # 20)) then [HighUniqueness col r]
                  else if negb (Qle_bool (1 # 20) r) then [LowUniqueness col r]
                  else [] in
      more ← pattern_loop df rest;
      mret (line ++ more)
  end.

Definition pattern_lines (df : DataFrame) : outcome (list insight) :=
  cons PatternHeader <$> pattern_loop df (seq 0 (length (df_columns df))).

Definition convertible (df : DataFrame) (i : nat) : list insight :=
  match nth i (dtypes df) Object with
  | Object =>
      match pd_to_numeric w (col_values df i) with
      | Return _ => [SuggestNumeric (nth i (columns df) "")]
      | Raise _ => []
      end
  | _ => []
  end.

Definition recommendation_lines (df : DataFrame) : list insight :=
  let positions := seq 0 (length (df_columns df)) in
  let missing_cols :=
    map (fun i => nth i (columns df) "")
        (List.filter (fun i => existsb is_null (col_values df i)) positions) in
  let numeric_df := select_dtypes_number df in
  [RecommendationHeader]
  ++ (match missing_cols with [] => [] | _ => [AddressMissing missing_cols] end)
  ++ (if (1 <? length (columns numeric_df))%nat
      then [SuggestCorrelation; SuggestFeatureSelection] else [])
  ++ flat_map (convertible df) positions.

Definition insights_of (df : DataFrame) (focus : string) : outcome (list insight) :=
  let overview := if str_in focus ["overview"; "all"] then overview_lines df else [] in
  let outliers := if str_in focus ["outliers"; "all"] then outlier_lines df else [] in
  patterns ← (if str_in focus ["patterns"; "all"] then pattern_lines df else Return []);
  let recommendations :=
    if str_in focus ["recommendations"; "all"] then recommendation_lines df else [] in
  mret (overview ++ outliers ++ patterns ++ recommendations).

Definition generate_insights (args : arguments) : M TextContent :=
  dataset_name ← getitem "name" (a_name args);
  let focus := default "overview" (a_focus args) in
  found ← lookup_dataset dataset_name;
  match found with
  | None => mret (DatasetNotFound dataset_name)
  | Some df =>
      insights ← lift (insights_of df focus);
      _ ← history_append (InsightsRecord dataset_name focus (datetime_now w));
      mret (Insights dataset_name insights)
  end.

(** [export_analysis] *)
Definition export_analysis (args : arguments) : M TextContent :=
  dataset_name ← getitem "name" (a_name args);
  let format_type := default "json" (a_format args) in
  output_path ← getitem "output_path" (a_output_path args);
  found ← lookup_dataset dataset_name;
  match found with
  | None => mret (DatasetNotFound dataset_name)
  | Some df =>
      _ ← lift (mkdir_parent w output_path);
      _ ← lift (if String.eqb format_type "csv" then
                  write_file w output_path (CsvTable df)
                else if String.eqb format_type "json" then
                  write_file w output_path (JsonReport dataset_name df (datetime_now w))
                else if String.eqb format_type "html" then
                  write_file w output_path (HtmlReport dataset_name df)
                else Return tt);
      mret (Exported dataset_name output_path format_type)
  end.

(** [filter_data] *)

(** [df[df[col] <op> val]] *)
Definition keep_rows (df : DataFrame) (i : nat) (op : cmp_op) (val : jvalue)
  : outcome DataFrame :=
  mask ← compare_column (nth i (dtypes df) Object) (col_values df i) op val;
  mret {| df_columns := df_columns df; df_rows := getitem_mask (df_rows df) mask |}.

(** one turn of the loop over [conditions] *)
Definition apply_condition (df : DataFrame) (c : condition) : outcome DataFrame :=
  match c_column c, c_operator c, c_value c with
  | Some col, Some op, Some val =>
      match index_of col (columns df) with
      | Some i =>
          if String.eqb op "==" then keep_rows df i OpEq val
          else if String.eqb op "!=" then keep_rows df i OpNe val
          else if String.eqb op ">" then keep_rows df i OpGt val
          else if String.eqb op "<" then keep_rows df i OpLt val
          else if String.eqb op ">=" then keep_rows df i OpGe val
          else if String.eqb op "<=" then keep_rows df i OpLe val
          else Return df
      | None => Return df
      end
  | _, _, _ => Return df
  end.

Fixpoint apply_conditions (df : DataFrame) (conditions : list condition)
  : outcome DataFrame :=
  match conditions with
  | [] => Return df
  | c :: rest => df' ← apply_condition df c; apply_conditions df' rest
  end.

Definition filter_data (args : arguments) : M TextContent :=
  dataset_name ← getitem "name" (a_name args);
  conditions ← getitem "conditions" (a_conditions args);
  new_name ← getitem "new_name" (a_new_name args);
  found ← lookup_dataset dataset_name;
  match found with
  | None => mret (DatasetNotFound dataset_name)
  | Some source =>
      let df := copy source in
      let original_shape := shape df in
      df ← lift (apply_conditions df conditions);
      _ ← store_dataset new_name df;
      mret (Filtered dataset_name new_name original_shape (shape df)
              (length conditions))
  end.

(** ** The dispatcher *)

(** the body of the [try] block *)
Definition dispatch (name : string) (args : arguments) : M TextContent :=
  if String.eqb name "load_dataset" then load_dataset args
  else if String.eqb name "dataset_info" then dataset_info args
  else if String.eqb name "calculate_statistics" then calculate_statistics args
  else if String.eqb name "find_correlations" then find_correlations args
  else if String.eqb name "group_analysis" then group_analysis args
  else if String.eqb name "data_quality_check" then data_quality_check args
  else if String.eqb name "generate_insights" then generate_insights args
  else if String.eqb name "export_analysis" then export_analysis args
  else if String.eqb name "filter_data" then filter_data args
  else mret (UnknownTool name).

Definition handle_call_tool (name : string) (args : arguments) (s : Server)
  : list TextContent * Server :=
  if negb (PANDAS_AVAILABLE w) then ([PandasRequired], s)
  else
    match dispatch name args s with
    | (Return r, s') => ([r], s')
    | (Raise e, s') => ([ErrorText e], s')
    end.
End Tools.

(** ** A sample table and environment *)

Definition no_arguments : arguments :=
  {| a_path := None; a_name := None; a_delimiter := None; a_columns := None;
     a_include_percentiles := None; a_method := None; a_threshold := None;
     a_group_by := None; a_agg_columns := None; a_operations := None;
     a_focus := None; a_format := None; a_output_path := None;
     a_conditions := None; a_new_name := None |}.

Definition named (name : string) : arguments :=
  {| a_path := None; a_name := Some name; a_delimiter := None; a_columns := None;
     a_include_percentiles := None; a_method := None; a_threshold := None;
     a_group_by := None; a_agg_columns := None; a_operations := None;
     a_focus := None; a_format := None; a_output_path := None;
     a_conditions := None; a_new_name := None |}.

(** the four employees of the usage scenario *)
Definition employees : DataFrame :=
  {| df_columns := [("name", Object); ("age", Int64); ("salary", Int64);
                    ("department", Object)];
     df_rows := [
       [Str "Alice"; Num 25; Num 50000; Str "IT"];
       [Str "Bob"; Num 30; Num 60000; Str "HR"];
       [Str "Charlie"; Num 35; Num 70000; Str "IT"];
       [Str "Diana"; Num 28; Num 55000; Str "Finance"]] |}.

Definition sample_matrix : CorrMatrix :=
  {| cm_columns := ["age"; "salary"];
     cm_values := [[Some 1%Q; Some (99 # 100)]; [Some (99 # 100); Some 1%Q]] |}.

Definition sample_world : World :=
  {| PANDAS_AVAILABLE := true;
     os_path_exists := fun path => String.eqb path "employees.csv";
     pd_read_csv := fun _ _ => Return employees;
     pd_read_json := fun _ => Raise (ValueError "Expected object or value");
     datetime_now := "2024-01-01T00:00:00";
     memory_usage := fun _ => 2048%Q;
     df_corr := fun _ _ => Return sample_matrix;
     groupby_agg := fun _ _ _ _ => Return "";
     pd_to_numeric := fun _ => Raise (ValueError "Unable to parse string");
     mkdir_parent := fun _ => Return tt;
     write_file := fun _ _ => Return tt |}.

Definition empty_server : Server :=
  {| datasets := ∅; analysis_history := [] |}.

Definition sample_server : Server :=
  {| datasets := {[ "staff" := employees ]}; analysis_history := [] |}.

(** sample requests *)
Definition load_request (path name : string) : arguments :=
  {| a_path := Some path; a_name := Some name; a_delimiter := None;
     a_columns := None; a_include_percentiles := None; a_method := None;
     a_threshold := None; a_group_by := None; a_agg_columns := None;
     a_operations := None; a_focus := None; a_format := None;
     a_output_path := None; a_conditions := None; a_new_name := None |}.

Definition filter_request (name : string) (conditions : list condition)
    (new_name : string) : arguments :=
  {| a_path := None; a_name := Some name; a_delimiter := None;
     a_columns := None; a_include_percentiles := None; a_method := None;
     a_threshold := None; a_group_by := None; a_agg_columns := None;
     a_operations := None; a_focus := None; a_format := None;
     a_output_path := None; a_conditions := Some conditions;
     a_new_name := Some new_name |}.

Definition insights_request (name focus : string) : arguments :=
  {| a_path := None; a_name := Some name; a_delimiter := None;
     a_columns := None; a_include_percentiles := None; a_method := None;
     a_threshold := None; a_group_by := None; a_agg_columns := None;
     a_operations := None; a_focus := Some focus; a_format := None;
     a_output_path := None; a_conditions := None; a_new_name := None |}.


(** [age > 28] *)
Definition older_than_28 : condition :=
  {| c_column := Some "age"; c_operator := Some ">"; c_value := Some (JNum 28) |}.

(** the request [args] with another list of conditions *)
Definition with_conditions (args : arguments) (conditions : list condition) : arguments :=
  {| a_path := a_path args; a_name := a_name args; a_delimiter := a_delimiter args;
     a_columns := a_columns args;
     a_include_percentiles := a_include_percentiles args;
     a_method := a_method args; a_threshold := a_threshold args;
     a_group_by := a_group_by args; a_agg_columns := a_agg_columns args;
     a_operations := a_operations args; a_focus := a_focus args;
     a_format := a_format args; a_output_path := a_output_path args;
     a_conditions := Some conditions; a_new_name := a_new_name args |}.

(** a condition on a column the employees do not have *)
Definition on_unknown_column : condition :=
  {| c_column := Some "height"; c_operator := Some "<"; c_value := Some (JNum 0) |}.

(** ** The words of the specification, for comparison *)

(** every row has one cell per column *)
Definition rectangular (df : DataFrame) : Prop :=
  Forall (fun r => length r = length (df_columns df)) (df_rows df).

(** two rows agree in each of the first [ncols] columns *)
Definition same_cells (ncols : nat) (r r' : list cell) : bool :=
  forallb (fun i => cell_eqb (nth i r Null) (nth i r' Null)) (seq 0 ncols).

(** row [i] is identical across all columns to some earlier row *)
Definition repeats_earlier_row (df : DataFrame) (i : nat) : bool :=
  existsb (fun j => same_cells (length (df_columns df))
                      (nth i (df_rows df) []) (nth j (df_rows df) []))
          (seq 0 i).

Definition rows_repeating_earlier (df : DataFrame) : nat :=
  length (List.filter (repeats_earlier_row df) (seq 0 (len df))).















(** a table with a missing salary and a repeated row *)
Definition payroll : DataFrame :=
  {| df_columns := [("name", Object); ("salary", Float64)];
     df_rows := [[Str "Alice"; Num 50000]; [Str "Bob"; Null];
                 [Str "Alice"; Num 50000]; [Null; Null]] |}.

Definition payroll_server : Server :=
  {| datasets := {[ "payroll" := payroll ]}; analysis_history := [] |}.

(** ** Resources *)





Record DatasetSummary := {
  ds_shape : nat * nat;
  ds_columns : list string;
  ds_dtypes : list (string * dtype);
  ds_memory_usage_mb : Q
}.

Record DatasetDetail := {
  d_name : string;
  d_shape : nat * nat;
  d_columns : list string;
  d_dtypes : list (string * dtype);
  d_sample_data : list (list cell);
  d_summary_statistics : list (string * column_stats);
  d_missing_data : list (string * nat);
  d_unique_counts : list (string * nat)
}.

(** what a resource read answers with, by the shape of its text; the guide
    is a fixed text *)
Inductive ResourceText :=
| LoadedDatasets (views : gmap string DatasetSummary)
| AnalysisGuide
| AnalysisHistory (records : list HistoryRecord)
| DatasetDetails (detail : DatasetDetail).

(** the character [/] *)
Definition slash : Ascii.ascii :=
  match "/" with
  | String c _ => c
  | EmptyString => Ascii.zero
  end.

Fixpoint contains_slash (s : string) : bool :=
  match s with
  | EmptyString => false
  | String c rest => Ascii.eqb c slash || contains_slash rest
  end.

(** [s.split("/")[-1]]: what follows the last slash, all of [s] without
    one *)
Fixpoint last_segment (s : string) : string :=
  match s with
  | EmptyString => EmptyString
  | String c rest =>
      if contains_slash rest then last_segment rest
      else if Ascii.eqb c slash then rest
      else s
  end.

(** [df.describe().to_dict() if len(df.select_dtypes(include=[np.number]).columns) > 0 else {}] *)
Definition guarded_describe (df : DataFrame) : outcome (list (string * column_stats)) :=
  if (0 <? length (columns (select_dtypes_number df)))%nat
  then describe [1 # 4; 1 # 2; 3 # 4]%Q df
  else Return [].

Definition dataset_summary (w : World) (df : DataFrame) : DatasetSummary :=
  {| ds_shape := shape df;
     ds_columns := columns df;
     ds_dtypes := df_columns df;
     ds_memory_usage_mb := (memory_usage w df / (1024 * 1024))%Q |}.

Definition dataset_detail (dataset_name : string) (df : DataFrame)
  : outcome DatasetDetail :=
  stats ← guarded_describe df;
  mret {| d_name := dataset_name;
          d_shape := shape df;
          d_columns := columns df;
          d_dtypes := df_columns df;
          d_sample_data := take 10 (df_rows df);
          d_summary_statistics := stats;
          d_missing_data := zip (columns df) (isnull_sum df);
          d_unique_counts :=
            zip (columns df)
                (map (nunique df) (seq 0 (length (df_columns df)))) |}.

(** [handle_read_resource], on [str(uri)] *)
Definition handle_read_resource (w : World) (s : Server) (uri_str : string)
  : outcome ResourceText :=
  if String.eqb uri_str "data://loaded_datasets" then
    Return (LoadedDatasets (dataset_summary w <$> datasets s))
  else if String.eqb uri_str "data://analysis_guide" then Return AnalysisGuide
  else if String.eqb uri_str "data://analysis_history" then
    Return (AnalysisHistory (analysis_history s))
  else if String.prefix "data://dataset/" uri_str then
    let dataset_name := last_segment uri_str in
    match datasets s !! dataset_name with
    | Some df => DatasetDetails <$> dataset_detail dataset_name df
    | None => Raise (ValueError ("Dataset '" +:+ dataset_name +:+ "' not found"))
    end
  else Raise (ValueError ("Unknown resource: " +:+ uri_str)).

(** ** Readings of the code, for the properties below *)

(** what [df[col] <op> val] answers for one cell of a column of type [t] *)
Definition cell_test (t : dtype) (op : cmp_op) (v : jvalue) (c : cell) : outcome bool :=
  match t, v with
  | (Int64 | Float64 | BoolT), JStr _ => invalid_comparison op
  | _, _ => compare_cell op c v
  end.

(** the cell passes the test *)
Definition passes (t : dtype) (op : cmp_op) (v : jvalue) (c : cell) : bool :=
  match cell_test t op v c with
  | Return true => true
  | _ => false
  end.

(** the operators [filter_data] knows *)
Definition parse_operator (op : string) : option cmp_op :=
  if String.eqb op "==" then Some OpEq
  else if String.eqb op "!=" then Some OpNe
  else if String.eqb op ">" then Some OpGt
  else if String.eqb op "<" then Some OpLt
  else if String.eqb op ">=" then Some OpGe
  else if String.eqb op "<=" then Some OpLe
  else None.

(** the condition names its three keys, a column of the frame and a known
    operator: the only conditions that touch the rows *)
Definition effective (df : DataFrame) (c : condition) : bool :=
  match c_column c, c_operator c, c_value c with
  | Some col, Some op, Some _ =>
      has_column df col && bool_decide (is_Some (parse_operator op))
  | _, _, _ => false
  end.

(** the row passes the condition; a condition that is not [effective]
    lets every row pass *)
Definition row_passes (df : DataFrame) (c : condition) (r : list cell) : bool :=
  match c_column c, c_operator c, c_value c with
  | Some col, Some op, Some v =>
      match index_of col (columns df), parse_operator op with
      | Some i, Some o => passes (nth i (dtypes df) Object) o v (nth i r Null)
      | _, _ => true
      end
  | _, _, _ => true
  end.



Definition correlations_request (name : string) (threshold : Q) : arguments :=
  {| a_path := None; a_name := Some name; a_delimiter := None;
     a_columns := None; a_include_percentiles := None; a_method := None;
     a_threshold := Some threshold; a_group_by := None; a_agg_columns := None;
     a_operations := None; a_focus := None; a_format := None;
     a_output_path := None; a_conditions := None; a_new_name := None |}.



(** the calls of one client, served one after the other on the same
    server object *)
Fixpoint handle_calls (w : World) (calls : list (string * arguments)) (s : Server)
  : Server :=
  match calls with
  | [] => s
  | (name, args) :: rest => handle_calls w rest (handle_call_tool w name args s).2
  end.

(** the registry key a call may assign to: [load_dataset] assigns
    [arguments["name"]], [filter_data] assigns [arguments["new_name"]], no
    other branch assigns *)
Definition assigned_key (call : string * arguments) : option string :=
  if String.eqb call.1 "load_dataset" then a_name call.2
  else if String.eqb call.1 "filter_data" then a_new_name call.2
  else None.

(** the request [args] read by key *)
Definition has_key (args : arguments) (key : string) : bool :=
  if String.eqb key "path" then bool_decide (is_Some (a_path args))
  else if String.eqb key "name" then bool_decide (is_Some (a_name args))
  else if String.eqb key "delimiter" then bool_decide (is_Some (a_delimiter args))
  else if String.eqb key "columns" then bool_decide (is_Some (a_columns args))
  else if String.eqb key "include_percentiles" then
    bool_decide (is_Some (a_include_percentiles args))
  else if String.eqb key "method" then bool_decide (is_Some (a_method args))
  else if String.eqb key "threshold" then bool_decide (is_Some (a_threshold args))
  else if String.eqb key "group_by" then bool_decide (is_Some (a_group_by args))
  else if String.eqb key "agg_columns" then bool_decide (is_Some (a_agg_columns args))
  else if String.eqb key "operations" then bool_decide (is_Some (a_operations args))
  else if String.eqb key "focus" then bool_decide (is_Some (a_focus args))
  else if String.eqb key "format" then bool_decide (is_Some (a_format args))
  else if String.eqb key "output_path" then bool_decide (is_Some (a_output_path args))
  else if String.eqb key "conditions" then bool_decide (is_Some (a_conditions args))
  else if String.eqb key "new_name" then bool_decide (is_Some (a_new_name args))
  else false.

(** the answer of the dispatcher for an outcome of its [try] block *)
Definition answer (o : outcome TextContent) : TextContent :=
  match o with
  | Return r => r
  | Raise e => ErrorText e
  end.

(** the call did not do what it was asked: an exception, or a text that
    reports a failure *)
Definition failed (o : outcome TextContent) : Prop := is_error (answer o) = true.

(** * Properties *)

(** ** Running the dispatcher monad *)

Ltac step_M :=
  unfold mbind, M_bind, mret, M_ret, lift, getitem, lookup_dataset, store_dataset,
    history_append, default, failed, answer in *; simpl in *.

Ltac split_match :=
  match goal with
  | H : context [match ?x with _ => _ end] |- _ => destruct x eqn:?
  | |- context [match ?x with _ => _ end] => destruct x eqn:?
  end.

Ltac run_M := repeat (step_M; simplify_eq; try split_match); try done.

(** ** What each tool does to the server *)

Lemma load_dataset_effect w args s o s' :
  load_dataset w args s = (o, s') →
  (failed o ∧ s' = s) ∨
  (∃ name df,
      a_name args = Some name ∧
      o = Return (Loaded name (shape df) (columns df) (memory_usage w df / 1024)%Q) ∧
      s' = {| datasets := <[name := df]> (datasets s);
              analysis_history :=
                analysis_history s
                ++ [LoadRecord name (datetime_now w) (shape df) (columns df)] |}).
Proof.
  unfold load_dataset, load_finish. intros H.
  run_M; try (by left); right; eauto.
Qed.

Lemma generate_insights_effect w args s o s' :
  generate_insights w args s = (o, s') →
  (failed o ∧ s' = s) ∨
  (∃ name df lines,
      a_name args = Some name ∧ datasets s !! name = Some df ∧
      insights_of w df (default "overview" (a_focus args)) = Return lines ∧
      o = Return (Insights name lines) ∧
      s' = {| datasets := datasets s;
              analysis_history :=
                analysis_history s
                ++ [InsightsRecord name (default "overview" (a_focus args))
                      (datetime_now w)] |}).
Proof.
  unfold generate_insights, mbind, M_bind, mret, M_ret, lift, getitem,
    lookup_dataset, history_append.
  intros H.
  destruct (a_name args) as [name|]; simpl in H; [|simplify_eq; by left].
  destruct (datasets s !! name) as [df|] eqn:Hdf; simpl in H;
    [|simplify_eq; by left].
  destruct (insights_of w df (default "overview" (a_focus args)))
    as [lines|e] eqn:Hlines; simpl in H; simplify_eq; [|by left].
  right. by exists name, df, lines.
Qed.

Lemma filter_data_effect args s o s' :
  filter_data args s = (o, s') →
  (failed o ∧ s' = s) ∨
  (∃ name conditions new_name df df',
      a_name args = Some name ∧ a_conditions args = Some conditions ∧
      a_new_name args = Some new_name ∧ datasets s !! name = Some df ∧
      apply_conditions df conditions = Return df' ∧
      o = Return (Filtered name new_name (shape df) (shape df') (length conditions)) ∧
      s' = {| datasets := <[new_name := df']> (datasets s);
              analysis_history := analysis_history s |}).
Proof.
  unfold filter_data, copy. intros H.
  run_M; try (by left); right; eexists _, _, _, _, _; eauto 10.
Qed.

(** the six other tools only read the server *)
Lemma reading_tools_effect w args s o s' :
  dataset_info w args s = (o, s') ∨ calculate_statistics args s = (o, s') ∨
  find_correlations w args s = (o, s') ∨ group_analysis w args s = (o, s') ∨
  data_quality_check args s = (o, s') ∨ export_analysis w args s = (o, s') →
  s' = s.
Proof.
  unfold dataset_info, calculate_statistics, find_correlations, group_analysis,
    data_quality_check, export_analysis.
  intros [H|[H|[H|[H|[H|H]]]]]; run_M.
Qed.

Ltac name_cases :=
  repeat match goal with
    | H : context [String.eqb ?a ?b] |- _ =>
        let E := fresh "E" in
        destruct (String.eqb a b) eqn:E;
        [apply String.eqb_eq in E | apply String.eqb_neq in E]
    end.

(** only three branches of the dispatcher write to the server *)
Lemma dispatch_effect w name args s o s' :
  dispatch w name args s = (o, s') →
  (name = "load_dataset" ∧ load_dataset w args s = (o, s')) ∨
  (name = "generate_insights" ∧ generate_insights w args s = (o, s')) ∨
  (name = "filter_data" ∧ filter_data args s = (o, s')) ∨
  (name ≠ "load_dataset" ∧ name ≠ "generate_insights" ∧ name ≠ "filter_data"
   ∧ s' = s).
Proof.
  unfold dispatch. intros H. name_cases; subst; auto;
    right; right; right; (repeat split; [done..|]).
  all: try (eapply (reading_tools_effect w); eauto 10; fail).
  unfold mret, M_ret in H. by simplify_eq.
Qed.

Lemma handle_call_tool_answer w name args s :
  PANDAS_AVAILABLE w = true →
  handle_call_tool w name args s
  = ([answer (dispatch w name args s).1], (dispatch w name args s).2).
Proof.
  intros Hp. unfold handle_call_tool. rewrite Hp. simpl.
  by destruct (dispatch w name args s) as [[r|e] s'].
Qed.

Lemma handle_call_tool_without_pandas w name args s :
  PANDAS_AVAILABLE w = false →
  handle_call_tool w name args s = ([PandasRequired], s).
Proof. intros Hp. unfold handle_call_tool. by rewrite Hp. Qed.

(** every call answers with one text, and the server it leaves is the one
    its [try] block left *)
Lemma handle_call_tool_cases w name args s :
  handle_call_tool w name args s = ([PandasRequired], s) ∨
  ∃ o s', dispatch w name args s = (o, s') ∧
          handle_call_tool w name args s = ([answer o], s').
Proof.
  destruct (PANDAS_AVAILABLE w) eqn:Hp.
  - right. rewrite handle_call_tool_answer by done.
    destruct (dispatch w name args s) as [o s']. by exists o, s'.
  - left. by apply handle_call_tool_without_pandas.
Qed.

(** ** The usage scenario *)

(** filtering the four employees by [age > 28] gives Bob and Charlie
    under the new name *)
Example filter_scenario :
  let call := handle_call_tool sample_world "filter_data"
                (filter_request "staff" [older_than_28] "seniors") sample_server in
  (fun df => col_values df 0) <$> datasets call.2 !! "seniors"
  = Some [Str "Bob"; Str "Charlie"] ∧
  datasets call.2 !! "staff" = Some employees.
Proof. split; reflexivity. Qed.

(** a missing argument, an unknown tool and a comparison without order
    are all answered with a text *)
Example failure_scenarios :
  (handle_call_tool sample_world "filter_data" (named "staff") sample_server).1
  = [ErrorText (KeyError "conditions")] ∧
  (handle_call_tool sample_world "plot" (named "staff") sample_server).1
  = [UnknownTool "plot"] ∧
  is_error <$> (handle_call_tool sample_world "filter_data"
     (filter_request "staff"
        [{| c_column := Some "age"; c_operator := Some "<";
            c_value := Some (JStr "thirty") |}] "young") sample_server).1
  = [true].
Proof. repeat split; reflexivity. Qed.

(** ** The history log *)

(** the seven tools other than [load_dataset] and [generate_insights]
    leave the history as it is *)
Lemma other_tools_keep_history w name args s r s' :
  handle_call_tool w name args s = ([r], s') →
  name ≠ "load_dataset" → name ≠ "generate_insights" →
  analysis_history s' = analysis_history s.
Proof.
  intros H Hl Hg.
  destruct (handle_call_tool_cases w name args s) as [Hp|(o & s1 & Hd & Ha)];
    rewrite H in *; simplify_eq; [done|].
  apply dispatch_effect in Hd
    as [[-> Hd]|[[-> Hd]|[[-> Hd]|(_ & _ & _ & ->)]]]; try done.
  by apply filter_data_effect in Hd
    as [[_ ->]|(n & c & n' & df & df' & _ & _ & _ & _ & _ & -> & ->)].
Qed.

(** C1 (as amended): a call of [load_dataset] or [generate_insights] that
    succeeds appends exactly one record to the analysis history, and a
    call of any tool that fails (dataset or file not found, unsupported
    format, unknown tool, caught exception) leaves the history as it
    was. *)
Theorem C1_history_log w name args s r s' :
  handle_call_tool w name args s = ([r], s') →
  (is_error r = false → name = "load_dataset" ∨ name = "generate_insights" →
   ∃ record, analysis_history s' = analysis_history s ++ [record]) ∧
  (is_error r = true → analysis_history s' = analysis_history s).
Proof.
  intros H.
  destruct (handle_call_tool_cases w name args s) as [Hp|(o & s1 & Hd & Ha)];
    rewrite H in *; simplify_eq.
  { split; done. }
  apply dispatch_effect in Hd
    as [[-> Hd]|[[-> Hd]|[[-> Hd]|(Hl & Hg & Hf & ->)]]].
  - apply load_dataset_effect in Hd as [[Hfail ->]|(n & df & _ & -> & ->)].
    + unfold failed in Hfail. split; [congruence|done].
    + split; [|done]. intros _ _. by eexists.
  - apply generate_insights_effect in Hd
      as [[Hfail ->]|(n & df & l & _ & _ & _ & -> & ->)].
    + unfold failed in Hfail. split; [congruence|done].
    + split; [|done]. intros _ _. by eexists.
  - apply filter_data_effect in Hd
      as [[Hfail ->]|(n & c & n' & df & df' & _ & _ & _ & _ & _ & -> & ->)];
      (split; [by intros _ [?|?]|done]).
  - split; [by intros _ [?|?]|done].
Qed.

Lemma C1_history_log_witness :
  ∃ record,
    analysis_history
      (handle_call_tool sample_world "load_dataset"
         (load_request "employees.csv" "staff") empty_server).2
    = analysis_history empty_server ++ [record].
Proof.
  destruct (C1_history_log sample_world "load_dataset"
              (load_request "employees.csv" "staff") empty_server _ _ eq_refl)
    as [Hgrow _].
  apply Hgrow; [reflexivity | by left].
Defined.

(** C1 (as stated) fails for [filter_data]: filtering the employees by
    [age > 28] succeeds and the history log does not grow. *)
Lemma C1_filter_data_leaves_history :
  let call := handle_call_tool sample_world "filter_data"
                (filter_request "staff" [older_than_28] "seniors") sample_server in
  call.1 = [Filtered "staff" "seniors" (4, 4) (2, 4) 1] ∧
  length (analysis_history call.2) ≠ S (length (analysis_history sample_server)).
Proof. split; [reflexivity | vm_compute; lia]. Qed.

(** ** Failures at the dispatcher boundary *)

(** C5: whatever exception the body of a tool raises is caught by the
    dispatcher and answered as the one text [Error: <message>]; every call
    answers with exactly one text. *)
Theorem C5_failures_are_answered w name args s e s' :
  PANDAS_AVAILABLE w = true →
  dispatch w name args s = (Raise e, s') →
  handle_call_tool w name args s = ([ErrorText e], s') ∧
  text_of_failure (ErrorText e) = Some ("Error: " +:+ str_exn e) ∧
  ∀ name' args' s0, ∃ r, (handle_call_tool w name' args' s0).1 = [r].
Proof.
  intros Hp Hd. split; [|split; [done|]].
  - rewrite handle_call_tool_answer by done. by rewrite Hd.
  - intros name' args' s0.
    destruct (handle_call_tool_cases w name' args' s0) as [->|(o & s1 & _ & ->)];
      by eexists.
Qed.

Lemma C5_failures_are_answered_witness :
  handle_call_tool sample_world "dataset_info" no_arguments sample_server
  = ([ErrorText (KeyError "name")], sample_server).
Proof.
  apply (C5_failures_are_answered sample_world "dataset_info" no_arguments
           sample_server (KeyError "name") sample_server); reflexivity.
Defined.

(** ** The registry on the error path *)

(** C10: a call that answers with an error text (unknown tool, dataset
    or file not found, unsupported format, missing column, caught
    exception) leaves the dataset registry as it was. *)
Theorem C10_error_keeps_registry w name args s r s' :
  handle_call_tool w name args s = ([r], s') →
  is_error r = true →
  datasets s' = datasets s.
Proof.
  intros H Herr.
  destruct (handle_call_tool_cases w name args s) as [Hp|(o & s1 & Hd & Ha)];
    rewrite H in *; simplify_eq; [done|].
  apply dispatch_effect in Hd
    as [[-> Hd]|[[-> Hd]|[[-> Hd]|(Hl & Hg & Hf & ->)]]]; [| | |done].
  - apply load_dataset_effect in Hd as [[_ ->]|(n & df & _ & -> & ->)]; done.
  - apply generate_insights_effect in Hd
      as [[_ ->]|(n & df & l & _ & _ & _ & -> & ->)]; done.
  - apply filter_data_effect in Hd
      as [[_ ->]|(n & c & n' & df & df' & _ & _ & _ & _ & _ & -> & ->)]; done.
Qed.

Lemma C10_error_keeps_registry_witness :
  datasets
    (handle_call_tool sample_world "load_dataset"
       (load_request "missing.csv" "staff") sample_server).2
  = datasets sample_server.
Proof.
  apply (C10_error_keeps_registry sample_world "load_dataset"
           (load_request "missing.csv" "staff") sample_server
           (FileNotFound "missing.csv")); reflexivity.
Defined.

(** ** filter_data and its source dataset *)




(** ** Conditions on unknown columns *)

Lemma keep_rows_columns df i op val df' :
  keep_rows df i op val = Return df' → df_columns df' = df_columns df.
Proof.
  unfold keep_rows. destruct (compare_column _ _ _ _); simpl; [|done].
  intros [= <-]. done.
Qed.

Lemma apply_condition_columns df c df' :
  apply_condition df c = Return df' → df_columns df' = df_columns df.
Proof.
  unfold apply_condition. intros H.
  repeat match type of H with
         | context [match ?x with _ => _ end] => destruct x
         end;
    first [by simplify_eq | by eapply keep_rows_columns].
Qed.

Lemma has_column_same_columns df df' col :
  df_columns df' = df_columns df → has_column df' col = has_column df col.
Proof. unfold has_column, columns. by intros ->. Qed.

(** the guard [if col in df.columns] leaves the frame alone *)
Lemma apply_condition_unknown_column df c col :
  c_column c = Some col → has_column df col = false →
  apply_condition df c = Return df.
Proof.
  unfold apply_condition, has_column. intros -> Hcol.
  destruct (c_operator c), (c_value c); try done.
  by destruct (index_of col (columns df)).
Qed.

Lemma apply_conditions_skip before : ∀ df c after col,
  c_column c = Some col → has_column df col = false →
  apply_conditions df (before ++ c :: after) = apply_conditions df (before ++ after).
Proof.
  induction before as [|a before IH]; intros df c after col Hc Hcol; simpl.
  - by rewrite (apply_condition_unknown_column df c col).
  - destruct (apply_condition df a) as [df1|e] eqn:Ha; simpl; [|done].
    apply (IH df1 c after col Hc).
    rewrite <- Hcol. apply has_column_same_columns.
    by eapply apply_condition_columns.
Qed.

Lemma dispatch_filter_data w args : dispatch w "filter_data" args = filter_data args.
Proof. reflexivity. Qed.

(** C9: in [filter_data] a condition whose column is not a column of the
    dataset is passed over: it leaves any frame of the loop as it is,
    raises nothing, and the conditions before and after it are applied as
    if it were not in the list; the registry after the call, and whether
    the call answers with an error, are those of the call without it. *)
Theorem C9_unknown_column_is_skipped w args s name df before c after col :
  a_name args = Some name →
  datasets s !! name = Some df →
  a_conditions args = Some (before ++ c :: after) →
  c_column c = Some col →
  has_column df col = false →
  let with_c := handle_call_tool w "filter_data" args s in
  let without_c :=
    handle_call_tool w "filter_data" (with_conditions args (before ++ after)) s in
  (∀ df', df_columns df' = df_columns df → apply_condition df' c = Return df') ∧
  apply_conditions df (before ++ c :: after) = apply_conditions df (before ++ after) ∧
  with_c.2 = without_c.2 ∧
  is_error <$> with_c.1 = is_error <$> without_c.1.
Proof.
  intros Hn Hdf Hconds Hc Hcol with_c without_c.
  assert (Hskip := apply_conditions_skip before df c after col Hc Hcol).
  split; [|split; [done|]].
  { intros df' Hcols. apply (apply_condition_unknown_column df' c col Hc).
    by rewrite (has_column_same_columns df df'). }
  subst with_c without_c. unfold handle_call_tool.
  destruct (PANDAS_AVAILABLE w); simpl; [|done].
  rewrite !dispatch_filter_data.
  unfold filter_data, with_conditions. step_M.
  rewrite Hn, Hconds. simpl. destruct (a_new_name args); simpl; [|done].
  rewrite Hdf. unfold copy. rewrite Hskip.
  by destruct (apply_conditions df (before ++ after)).
Qed.

Lemma C9_unknown_column_is_skipped_witness :
  datasets
    (handle_call_tool sample_world "filter_data"
       (filter_request "staff" [on_unknown_column; older_than_28] "seniors")
       sample_server).2
  = datasets
      (handle_call_tool sample_world "filter_data"
         (filter_request "staff" [older_than_28] "seniors") sample_server).2.
Proof.
  destruct (C9_unknown_column_is_skipped sample_world
              (filter_request "staff" [on_unknown_column; older_than_28] "seniors")
              sample_server "staff" employees [] on_unknown_column [older_than_28]
              "height" eq_refl eq_refl eq_refl eq_refl eq_refl)
    as (_ & _ & Hserver & _).
  exact (f_equal datasets Hserver).
Defined.

(** ** The declared schema of generate_insights *)

(** C4: the schema declared for [generate_insights] enumerates
    [overview], [outliers], [patterns] and [recommendations] for [focus],
    with default [overview], and does not list [all]; the tool itself
    answers [focus = all] with the overview, outlier, pattern and
    recommendation sections one after the other. *)
Theorem C4_focus_all_outside_enum :
  schema_accepts "generate_insights" "focus" "all" = Some false ∧
  Forall (fun v => schema_accepts "generate_insights" "focus" v = Some true)
         ["overview"; "outliers"; "patterns"; "recommendations"] ∧
  (t ← find_tool "generate_insights"; p ← find_property t "focus"; p_default p)
  = Some (DefStr "overview") ∧
  ∀ w df,
    insights_of w df "all"
    = (patterns ← pattern_lines df;
       mret (overview_lines df ++ outlier_lines df ++ patterns
             ++ recommendation_lines w df)).
Proof.
  split; [reflexivity|]. split; [by repeat constructor|].
  split; [reflexivity|]. intros w df. reflexivity.
Qed.

(** ** Missing values and duplicate rows *)

Lemma count_true_map {A} (f : A → bool) (l : list A) :
  count_true (map f l) = length (List.filter f l).
Proof.
  unfold count_true. induction l as [|a l IH]; simpl; [done|].
  destruct (f a); simpl; by rewrite IH.
Qed.

Lemma existsb_of_map {A B} (f : B → bool) (g : A → B) (l : list A) :
  existsb f (map g l) = existsb (fun a => f (g a)) l.
Proof. induction l as [|a l IH]; simpl; [done|]. by rewrite IH. Qed.

Lemma existsb_agree {A} (f g : A → bool) (l : list A) :
  (∀ a, In a l → f a = g a) → existsb f l = existsb g l.
Proof.
  induction l as [|a l IH]; simpl; intros H; [done|].
  rewrite (H a) by auto. rewrite IH; auto.
Qed.

Lemma existsb_positions {A} (f : A → bool) (d : A) (l tl : list A) :
  existsb f l = existsb (fun j => f (nth j (l ++ tl) d)) (seq 0 (length l)).
Proof.
  induction l as [|a l IH]; simpl; [done|].
  rewrite <- seq_shift, existsb_of_map. by rewrite IH.
Qed.

(** the mask of [duplicated], position by position *)
Lemma duplicated_from_positions rs : ∀ seen,
  duplicated_from seen rs
  = map (fun i => existsb (fun j => row_eqb (nth i (seen ++ rs) [])
                                            (nth j (seen ++ rs) []))
                          (seq 0 i))
        (seq (length seen) (length rs)).
Proof.
  induction rs as [|r rs IH]; intros seen; simpl; [done|]. f_equal.
  - rewrite nth_middle. apply existsb_positions.
  - rewrite (IH (seen ++ [r])), length_app, Nat.add_1_r. simpl.
    by rewrite <- app_assoc.
Qed.

Lemma forallb_seq_shift (f : nat → bool) n : ∀ k,
  forallb (fun i => f (S i)) (seq k n) = forallb f (seq (S k) n).
Proof. induction n as [|n IH]; intros k; simpl; [done|]. by rewrite IH. Qed.

Lemma row_eqb_same_cells r : ∀ r' n,
  length r = n → length r' = n → row_eqb r r' = same_cells n r r'.
Proof.
  unfold same_cells.
  induction r as [|a r IH]; intros [|b r'] [|n] Hr Hr'; simplify_eq/=; [done|].
  f_equal. rewrite <- forallb_seq_shift. by apply IH.
Qed.

Lemma duplicated_spec df :
  rectangular df →
  count_true (duplicated df) = rows_repeating_earlier df.
Proof.
  intros Hrect. unfold duplicated, rows_repeating_earlier, len.
  rewrite duplicated_from_positions, count_true_map. simpl.
  f_equal. apply filter_ext_in. intros i Hi%in_seq.
  unfold repeats_earlier_row. apply existsb_agree. intros j Hj%in_seq.
  unfold rectangular in Hrect. rewrite List.Forall_forall in Hrect.
  apply row_eqb_same_cells; apply Hrect, nth_In; lia.
Qed.

Lemma list_sum_map_add {A} (f g : A → nat) (l : list A) :
  list_sum (map (fun a => f a + g a) l) = list_sum (map f l) + list_sum (map g l).
Proof. induction l as [|a l IH]; simpl; [done|]. rewrite IH. lia. Qed.

Lemma list_sum_map_zero {A} (l : list A) : list_sum (map (fun _ => 0) l) = 0.
Proof. by induction l. Qed.

Lemma list_sum_seq_shift (f : nat → nat) n : ∀ k,
  list_sum (map (fun i => f (S i)) (seq k n)) = list_sum (map f (seq (S k) n)).
Proof. induction n as [|n IH]; intros k; simpl; [done|]. by rewrite IH. Qed.

(** the missing cells of one row, counted column by column *)
Lemma null_cells_of_row r : ∀ n,
  length r = n →
  list_sum (map (fun i => if is_null (nth i r Null) then 1 else 0) (seq 0 n))
  = length (List.filter is_null r).
Proof.
  induction r as [|c r IH]; intros [|n] Hn; simplify_eq/=; [done|].
  rewrite <- list_sum_seq_shift, (IH (length r)) by done.
  by destruct (is_null c).
Qed.

(** summing the null counts of the columns counts the missing cells of
    the table *)
Lemma isnull_sum_counts_cells df :
  rectangular df →
  list_sum (isnull_sum df) = length (List.filter is_null (concat (df_rows df))).
Proof.
  unfold rectangular, isnull_sum, null_count, col_values.
  generalize (length (df_columns df)) as n. intros n.
  induction (df_rows df) as [|r rows IH]; intros Hrect; simpl.
  - apply list_sum_map_zero.
  - inversion Hrect as [|? ? Hr Hrows]; subst.
    rewrite List.filter_app, length_app, <- IH, <- (null_cells_of_row r (length r)) by done.
    rewrite <- list_sum_map_add. f_equal. apply map_ext. intros i.
    by destruct (is_null (nth i r Null)).
Qed.

(** C8: [data_quality_check] reports as [total_missing_values] the sum
    over the columns of their null counts, which is the number of missing
    cells of the table, and as [duplicate_rows] the number of rows that are
    identical across all columns to some earlier row. *)
Theorem C8_missing_and_duplicates w args s name df :
  PANDAS_AVAILABLE w = true →
  a_name args = Some name →
  datasets s !! name = Some df →
  rectangular df →
  ∃ report,
    handle_call_tool w "data_quality_check" args s = ([DataQuality report], s) ∧
    total_missing_values report
    = list_sum (map (null_count df) (seq 0 (length (df_columns df)))) ∧
    total_missing_values report
    = length (List.filter is_null (concat (df_rows df))) ∧
    duplicate_rows report = rows_repeating_earlier df.
Proof.
  intros Hp Hn Hdf Hrect. exists (quality_report name df). split.
  - rewrite handle_call_tool_answer by done.
    change (dispatch w "data_quality_check" args) with (data_quality_check args).
    unfold data_quality_check. step_M. rewrite Hn. simpl. by rewrite Hdf.
  - simpl. split; [done|]. split.
    + by apply isnull_sum_counts_cells.
    + by apply duplicated_spec.
Qed.

Lemma C8_missing_and_duplicates_witness :
  ∃ report,
    handle_call_tool sample_world "data_quality_check" (named "payroll")
      payroll_server = ([DataQuality report], payroll_server) ∧
    total_missing_values report = 3 ∧ duplicate_rows report = 1.
Proof.
  destruct (C8_missing_and_duplicates sample_world (named "payroll")
              payroll_server "payroll" payroll eq_refl eq_refl eq_refl)
    as (report & Hcall & _ & Hmissing & Hdup).
  { repeat constructor. }
  exists report. split; [exact Hcall|]. split.
  - rewrite Hmissing. reflexivity.
  - rewrite Hdup. reflexivity.
Defined.

(** ** Outliers *)











(** ** Which columns the statistics cover *)











(** without a list of columns and without a numeric column there is
    nothing to describe: the call answers with the error of [describe] *)
Lemma calculate_statistics_without_numeric_column w args s name df :
  PANDAS_AVAILABLE w = true →
  a_name args = Some name →
  datasets s !! name = Some df →
  a_columns args = None →
  df_columns (select_dtypes_number df) = [] →
  handle_call_tool w "calculate_statistics" args s
  = ([ErrorText (ValueError "Cannot describe a DataFrame without columns")], s).
Proof.
  intros Hp Hn Hdf Hcols Hnum.
  rewrite handle_call_tool_answer by done.
  change (dispatch w "calculate_statistics" args) with (calculate_statistics args).
  assert (Hd : ∀ p, describe p (select_dtypes_number df)
                    = Raise (ValueError "Cannot describe a DataFrame without columns")).
  { intros p. unfold describe. by rewrite Hnum. }
  unfold calculate_statistics, mbind, M_bind, lift, getitem, lookup_dataset.
  rewrite Hn, Hcols. simpl. rewrite Hdf. simpl. rewrite !Hd.
  by destruct (default true (a_include_percentiles args)).
Qed.




(** ** Correlation pairs *)




Lemma insert_by_key_Permutation p l : insert_by_key p l ≡ₚ p :: l.
Proof.
  induction l as [|q l IH]; simpl; [done|].
  destruct (Qle_bool _ _); [done|]. rewrite IH. apply Permutation_swap.
Qed.

Lemma sorted_reverse_Permutation l : sorted_reverse l ≡ₚ l.
Proof.
  induction l as [|p l IH]; simpl; [done|].
  by rewrite insert_by_key_Permutation, IH.
Qed.






(** * Further properties of the code *)

(** ** What filter_data keeps *)

Lemma getitem_mask_sublist rows : ∀ mask, getitem_mask rows mask `sublist_of` rows.
Proof.
  induction rows as [|r rows IH]; intros [|b mask]; simpl;
    try apply sublist_nil_l.
  destruct b; [by apply sublist_skip|by apply sublist_cons].
Qed.

Lemma keep_rows_sublist df i op val df' :
  keep_rows df i op val = Return df' → df_rows df' `sublist_of` df_rows df.
Proof.
  unfold keep_rows. destruct (compare_column _ _ _ _); simpl; [|done].
  intros [= <-]. apply getitem_mask_sublist.
Qed.

Lemma apply_condition_sublist df c df' :
  apply_condition df c = Return df' → df_rows df' `sublist_of` df_rows df.
Proof.
  unfold apply_condition. intros H.
  repeat match type of H with
         | context [match ?x with _ => _ end] => destruct x
         end;
    first [by simplify_eq | by eapply keep_rows_sublist].
Qed.

Lemma apply_conditions_keeps conditions : ∀ df df',
  apply_conditions df conditions = Return df' →
  df_columns df' = df_columns df ∧ df_rows df' `sublist_of` df_rows df.
Proof.
  induction conditions as [|c rest IH]; intros df df'; simpl.
  - by intros [= <-].
  - destruct (apply_condition df c) as [d1|] eqn:Hc; simpl; [|done].
    intros [Hcols Hrows]%IH.
    rewrite Hcols, (apply_condition_columns df c d1 Hc). split; [done|].
    etrans; [exact Hrows|by eapply apply_condition_sublist].
Qed.

Lemma rectangular_sublist df df' :
  df_columns df' = df_columns df → df_rows df' `sublist_of` df_rows df →
  rectangular df → rectangular df'.
Proof.
  unfold rectangular. intros -> Hsub Hrect.
  apply List.Forall_forall. intros r Hr.
  rewrite List.Forall_forall in Hrect. apply Hrect.
  apply list_elem_of_In. eapply sublist_subseteq; [exact Hsub|].
  by apply list_elem_of_In.
Qed.

(** X1: the dataset a successful [filter_data] call registers has the
    columns of its source and a selection of the source's rows, in their
    order: no row is added, changed or moved, and a table with one cell per
    column stays one. *)
Theorem filter_data_selects_rows w args s name df r s' :
  a_name args = Some name →
  datasets s !! name = Some df →
  handle_call_tool w "filter_data" args s = ([r], s') →
  is_error r = false →
  ∃ new_name df',
    a_new_name args = Some new_name ∧
    datasets s' !! new_name = Some df' ∧
    df_columns df' = df_columns df ∧
    df_rows df' `sublist_of` df_rows df ∧
    (len df' ≤ len df)%nat ∧
    (rectangular df → rectangular df').
Proof.
  intros Hn Hdf H Hok.
  destruct (handle_call_tool_cases w "filter_data" args s)
    as [Hp|(o & s1 & Hd & Ha)]; rewrite H in *; simplify_eq; try done.
  rewrite dispatch_filter_data in Hd.
  apply filter_data_effect in Hd
    as [[Hfail ->]|(n & c & n' & df0 & df' & ? & ? & ? & ? & Happ & -> & ->)].
  { unfold failed in Hfail. congruence. }
  simplify_eq. apply apply_conditions_keeps in Happ as [Hcols Hrows].
  exists n', df'. simpl. rewrite lookup_insert_eq.
  repeat split; try done.
  - unfold len. by apply sublist_length.
  - by apply rectangular_sublist.
Qed.

Lemma filter_data_selects_rows_witness :
  ∃ new_name df',
    a_new_name (filter_request "staff" [older_than_28] "seniors") = Some new_name ∧
    datasets
      (handle_call_tool sample_world "filter_data"
         (filter_request "staff" [older_than_28] "seniors") sample_server).2
    !! new_name = Some df' ∧
    df_rows df' `sublist_of` df_rows employees.
Proof.
  destruct (filter_data_selects_rows sample_world
              (filter_request "staff" [older_than_28] "seniors") sample_server
              "staff" employees _ _ eq_refl eq_refl eq_refl eq_refl)
    as (new_name & df' & Hname & Hstored & _ & Hrows & _).
  by exists new_name, df'.
Defined.

(** ** Which rows filter_data keeps *)

Lemma compare_cells_tests op v cs : ∀ mask,
  compare_cells op cs v = Return mask →
  mask = map (fun c => match compare_cell op c v with
                       | Return true => true
                       | _ => false
                       end) cs
  ∧ ∀ c, In c cs → ∃ b, compare_cell op c v = Return b.
Proof.
  induction cs as [|c cs IH]; intros mask; simpl.
  - intros [= <-]. split; [done|]. by intros c [].
  - destruct (compare_cell op c v) as [b|] eqn:Hc; simpl; [|done].
    destruct (compare_cells op cs v) as [bs|]; simpl; [|done].
    intros [= <-]. destruct (IH bs eq_refl) as [-> Hall]. split.
    + by destruct b.
    + intros c' [<-|Hin]; [by exists b|by apply Hall].
Qed.

Lemma compare_cells_of_tests op v cs :
  (∀ c, In c cs → ∃ b, compare_cell op c v = Return b) →
  compare_cells op cs v
  = Return (map (fun c => match compare_cell op c v with
                          | Return true => true
                          | _ => false
                          end) cs).
Proof.
  induction cs as [|c cs IH]; intros Hall; simpl; [done|].
  destruct (Hall c) as [b Hb]; [by left|]. rewrite Hb. simpl.
  rewrite IH by (intros c' Hc'; apply Hall; by right). simpl.
  by destruct b.
Qed.

(** a comparison that answers, answers with the test of each cell, and
    answers as well on any selection of the cells *)
Lemma compare_column_tests t cs op v mask :
  compare_column t cs op v = Return mask →
  mask = map (passes t op v) cs ∧
  ∀ cs', (∀ c, In c cs' → In c cs) →
         compare_column t cs' op v = Return (map (passes t op v) cs').
Proof.
  unfold compare_column, passes, cell_test.
  destruct t, v;
    try (intros [-> Hall]%compare_cells_tests; split; [done|];
         intros cs' Hsub; apply compare_cells_of_tests; by auto).
  all: destruct (invalid_comparison op) as [b|] eqn:Hop; simpl; [|done].
  all: intros [= <-]; split;
    [apply map_ext; intros _; by destruct b
    |intros cs' _; f_equal; apply map_ext; intros _; by destruct b].
Qed.

Lemma getitem_mask_filter {A} (f : A → bool) (g : list cell → A) rows :
  getitem_mask rows (map f (map g rows)) = List.filter (fun r => f (g r)) rows.
Proof.
  induction rows as [|r rows IH]; simpl; [done|]. rewrite IH.
  by destruct (f (g r)).
Qed.

Lemma keep_rows_exact df i op val df' :
  keep_rows df i op val = Return df' →
  df_rows df'
  = List.filter (fun r => passes (nth i (dtypes df) Object) op val (nth i r Null))
                (df_rows df).
Proof.
  unfold keep_rows.
  destruct (compare_column _ _ _ _) as [mask|] eqn:Hm; simpl; [|done].
  intros [= <-]. simpl. apply compare_column_tests in Hm as [-> _].
  unfold col_values. apply getitem_mask_filter.
Qed.

Lemma filter_all {A} (f : A → bool) (l : list A) :
  (∀ a, In a l → f a = true) → List.filter f l = l.
Proof.
  intros H. apply forallb_filter_id, forallb_forall. exact H.
Qed.

(** rows that passed the test pass it again *)
Lemma keep_rows_stable df i op val d1 d2 :
  keep_rows df i op val = Return d1 →
  df_columns d2 = df_columns df →
  (∀ r, In r (df_rows d2) → In r (df_rows d1)) →
  keep_rows d2 i op val = Return d2.
Proof.
  intros Hkeep Hcols Hsub. pose proof (keep_rows_exact _ _ _ _ _ Hkeep) as Hrows.
  unfold keep_rows in *. unfold dtypes in *. rewrite Hcols.
  destruct (compare_column _ (col_values df i) _ _) as [mask|] eqn:Hm; [|done].
  apply compare_column_tests in Hm as [_ Hany].
  assert (Hin : ∀ r, In r (df_rows d2) →
                     In r (df_rows df) ∧
                     passes (nth i (map snd (df_columns df)) Object) op val
                            (nth i r Null) = true).
  { intros r Hr%Hsub. rewrite Hrows in Hr. by apply filter_In in Hr. }
  rewrite (Hany (col_values d2 i)).
  - simpl. unfold col_values. rewrite getitem_mask_filter.
    rewrite filter_all by (intros r Hr; by apply Hin).
    rewrite <- Hcols. by destruct d2.
  - unfold col_values. intros c (r & <- & Hr)%in_map_iff.
    apply in_map_iff. exists r. split; [done|]. by apply Hin.
Qed.

(** the loop body, by the operator it recognises *)
Lemma apply_condition_cases df c :
  apply_condition df c
  = match c_column c, c_operator c, c_value c with
    | Some col, Some op, Some v =>
        match index_of col (columns df), parse_operator op with
        | Some i, Some o => keep_rows df i o v
        | _, _ => Return df
        end
    | _, _, _ => Return df
    end.
Proof.
  unfold apply_condition, parse_operator.
  destruct (c_column c), (c_operator c) as [op|], (c_value c); try done.
  destruct (index_of _ _); [|done].
  repeat match goal with
         | |- context [String.eqb ?a ?b] => destruct (String.eqb a b)
         end; done.
Qed.

Lemma row_passes_columns df df' c r :
  df_columns df' = df_columns df → row_passes df' c r = row_passes df c r.
Proof. unfold row_passes, columns, dtypes. by intros ->. Qed.

Lemma apply_condition_exact df c df' :
  apply_condition df c = Return df' →
  df_rows df' = List.filter (row_passes df c) (df_rows df).
Proof.
  rewrite apply_condition_cases. unfold row_passes.
  assert (Hall : ∀ rows : list (list cell), rows = List.filter (fun _ => true) rows).
  { intros rows. symmetry. by apply filter_all. }
  destruct (c_column c), (c_operator c) as [op|], (c_value c);
    try (intros [= <-]; apply Hall).
  destruct (index_of _ _), (parse_operator op);
    try (intros [= <-]; apply Hall).
  apply keep_rows_exact.
Qed.

Lemma apply_condition_stable df c d1 d2 :
  apply_condition df c = Return d1 →
  df_columns d2 = df_columns df →
  (∀ r, In r (df_rows d2) → In r (df_rows d1)) →
  apply_condition d2 c = Return d2.
Proof.
  rewrite !apply_condition_cases. unfold columns. intros H Hcols Hsub.
  rewrite Hcols.
  destruct (c_column c), (c_operator c) as [op|], (c_value c); try done.
  destruct (index_of _ _), (parse_operator op); try done.
  by eapply keep_rows_stable.
Qed.

Lemma filter_filter {A} (f g : A → bool) (l : list A) :
  List.filter g (List.filter f l) = List.filter (fun a => f a && g a) l.
Proof.
  induction l as [|a l IH]; simpl; [done|].
  destruct (f a); simpl; [|done]. destruct (g a); by rewrite IH.
Qed.

Lemma forallb_agree {A} (f g : A → bool) (l : list A) :
  (∀ a, In a l → f a = g a) → forallb f l = forallb g l.
Proof.
  induction l as [|a l IH]; simpl; intros H; [done|].
  rewrite (H a) by auto. rewrite IH; auto.
Qed.

Lemma apply_conditions_exact conditions : ∀ df df',
  apply_conditions df conditions = Return df' →
  df_rows df'
  = List.filter (fun r => forallb (fun c => row_passes df c r) conditions)
                (df_rows df).
Proof.
  induction conditions as [|c rest IH]; intros df df'; simpl.
  - intros [= <-]. symmetry. by apply filter_all.
  - destruct (apply_condition df c) as [d1|] eqn:Hc; simpl; [|done].
    intros Hrest. rewrite (IH d1 df' Hrest), (apply_condition_exact df c d1 Hc).
    rewrite filter_filter. apply filter_ext. intros r. f_equal.
    apply forallb_agree. intros c' _. apply row_passes_columns.
    by eapply apply_condition_columns.
Qed.

(** a [filter_data] call whose conditions all answer *)
Lemma filter_data_success w args s name conditions new_name df df' :
  PANDAS_AVAILABLE w = true →
  a_name args = Some name →
  a_conditions args = Some conditions →
  a_new_name args = Some new_name →
  datasets s !! name = Some df →
  apply_conditions df conditions = Return df' →
  handle_call_tool w "filter_data" args s
  = ([Filtered name new_name (shape df) (shape df') (length conditions)],
     {| datasets := <[new_name := df']> (datasets s);
        analysis_history := analysis_history s |}).
Proof.
  intros Hp Hn Hc Hnn Hdf Happ.
  rewrite handle_call_tool_answer, dispatch_filter_data by done.
  unfold filter_data, mbind, M_bind, mret, M_ret, lift, getitem, lookup_dataset,
    store_dataset, copy.
  rewrite Hn, Hc, Hnn. simpl. rewrite Hdf, Happ. done.
Qed.

(** X2: the conditions of [filter_data] are combined with AND: the
    dataset a successful call registers holds exactly the rows of the
    source that pass every condition, in the source's order. *)
Theorem filter_data_keeps_passing_rows w args s name conditions df r s' :
  a_name args = Some name →
  a_conditions args = Some conditions →
  datasets s !! name = Some df →
  handle_call_tool w "filter_data" args s = ([r], s') →
  is_error r = false →
  ∃ new_name df',
    a_new_name args = Some new_name ∧
    datasets s' !! new_name = Some df' ∧
    df_rows df'
    = List.filter (fun row => forallb (fun c => row_passes df c row) conditions)
                  (df_rows df).
Proof.
  intros Hn Hc Hdf H Hok.
  destruct (handle_call_tool_cases w "filter_data" args s)
    as [Hp|(o & s1 & Hd & Ha)]; rewrite H in *; simplify_eq; try done.
  rewrite dispatch_filter_data in Hd.
  apply filter_data_effect in Hd
    as [[Hfail ->]|(n & c & n' & df0 & df' & ? & ? & ? & ? & Happ & -> & ->)].
  { unfold failed in Hfail. congruence. }
  simplify_eq. exists n', df'. simpl. rewrite lookup_insert_eq.
  repeat split; try done. by apply apply_conditions_exact.
Qed.

Lemma filter_data_keeps_passing_rows_witness :
  ∃ new_name df',
    a_new_name (filter_request "staff" [older_than_28] "seniors") = Some new_name ∧
    datasets
      (handle_call_tool sample_world "filter_data"
         (filter_request "staff" [older_than_28] "seniors") sample_server).2
    !! new_name = Some df' ∧
    df_rows df'
    = [[Str "Bob"; Num 30; Num 60000; Str "HR"];
       [Str "Charlie"; Num 35; Num 70000; Str "IT"]].
Proof.
  destruct (filter_data_keeps_passing_rows sample_world
              (filter_request "staff" [older_than_28] "seniors") sample_server
              "staff" [older_than_28] employees _ _
              eq_refl eq_refl eq_refl eq_refl eq_refl)
    as (new_name & df' & Hname & Hstored & Hrows).
  exists new_name, df'. split; [exact Hname|]. split; [exact Hstored|].
  rewrite Hrows. reflexivity.
Defined.

Lemma apply_conditions_stable conditions : ∀ df df' d2,
  apply_conditions df conditions = Return df' →
  df_columns d2 = df_columns df →
  (∀ r, In r (df_rows d2) → In r (df_rows df')) →
  apply_conditions d2 conditions = Return d2.
Proof.
  induction conditions as [|c rest IH]; intros df df' d2; simpl; [done|].
  destruct (apply_condition df c) as [d1|] eqn:Hc; simpl; [|done].
  intros Hrest Hcols Hsub.
  destruct (apply_conditions_keeps rest d1 df' Hrest) as [_ Hrows].
  rewrite (apply_condition_stable df c d1 d2 Hc Hcols). 
  - simpl. apply (IH d1 df' d2 Hrest); [|done].
    rewrite Hcols. symmetry. by eapply apply_condition_columns.
  - intros r Hr%Hsub. apply list_elem_of_In.
    eapply sublist_subseteq; [exact Hrows|]. by apply list_elem_of_In.
Qed.

(** X3: filtering is idempotent: once a [filter_data] call has succeeded,
    filtering its result by the same conditions succeeds as well and
    registers the very same table, with no row lost. *)
Theorem filter_data_idempotent w args s name conditions new_name df r s' again args' :
  PANDAS_AVAILABLE w = true →
  a_name args = Some name →
  a_conditions args = Some conditions →
  a_new_name args = Some new_name →
  datasets s !! name = Some df →
  handle_call_tool w "filter_data" args s = ([r], s') →
  is_error r = false →
  a_name args' = Some new_name →
  a_conditions args' = Some conditions →
  a_new_name args' = Some again →
  ∃ df',
    datasets s' !! new_name = Some df' ∧
    handle_call_tool w "filter_data" args' s'
    = ([Filtered new_name again (shape df') (shape df') (length conditions)],
       {| datasets := <[again := df']> (datasets s');
          analysis_history := analysis_history s' |}).
Proof.
  intros Hp Hn Hc Hnn Hdf H Hok Hn' Hc' Hnn'.
  destruct (handle_call_tool_cases w "filter_data" args s)
    as [Hpan|(o & s1 & Hd & Ha)]; rewrite H in *; simplify_eq; try done.
  rewrite dispatch_filter_data in Hd.
  apply filter_data_effect in Hd
    as [[Hfail ->]|(n & c & n' & df0 & df' & ? & ? & ? & ? & Happ & -> & ->)].
  { unfold failed in Hfail. congruence. }
  simplify_eq.
  set (s1 := {| datasets := <[new_name := df']> (datasets s);
                analysis_history := analysis_history s |}).
  assert (Hs1 : datasets s1 !! new_name = Some df')
    by (simpl; by rewrite lookup_insert_eq).
  exists df'. split; [done|].
  apply (filter_data_success w args' s1 new_name conditions again df' df');
    try done.
  apply (apply_conditions_stable conditions df df' df' Happ); [|done].
  by apply apply_conditions_keeps in Happ as [-> _].
Qed.

Lemma filter_data_idempotent_witness :
  ∃ df',
    datasets
      (handle_call_tool sample_world "filter_data"
         (filter_request "staff" [older_than_28] "seniors") sample_server).2
    !! "seniors" = Some df' ∧
    (handle_call_tool sample_world "filter_data"
       (filter_request "seniors" [older_than_28] "again")
       (handle_call_tool sample_world "filter_data"
          (filter_request "staff" [older_than_28] "seniors") sample_server).2).1
    = [Filtered "seniors" "again" (shape df') (shape df') 1].
Proof.
  destruct (filter_data_idempotent sample_world
              (filter_request "staff" [older_than_28] "seniors") sample_server
              "staff" [older_than_28] "seniors" employees _ _ "again"
              (filter_request "seniors" [older_than_28] "again")
              eq_refl eq_refl eq_refl eq_refl eq_refl eq_refl eq_refl
              eq_refl eq_refl eq_refl)
    as (df' & Hstored & Hcall).
  exists df'. split; [exact Hstored|]. exact (f_equal fst Hcall).
Defined.

(** ** Conditions that filter_data passes over *)

Lemma effective_columns df df' c :
  df_columns df' = df_columns df → effective df' c = effective df c.
Proof. unfold effective, has_column, columns. by intros ->. Qed.

Lemma apply_condition_ineffective df c :
  effective df c = false → apply_condition df c = Return df.
Proof.
  rewrite apply_condition_cases. unfold effective, has_column.
  destruct (c_column c), (c_operator c) as [op|], (c_value c); try done.
  destruct (index_of _ _); [|done].
  by destruct (parse_operator op).
Qed.

Lemma apply_conditions_effective conditions : ∀ df,
  apply_conditions df conditions
  = apply_conditions df (List.filter (effective df) conditions).
Proof.
  induction conditions as [|c rest IH]; intros df; simpl; [done|].
  destruct (effective df c) eqn:Heff; simpl.
  - destruct (apply_condition df c) as [d1|] eqn:Hc; [|done].
    unfold mbind, outcome_bind.
    rewrite (IH d1). f_equal. apply filter_ext. intros c'.
    apply effective_columns. by eapply apply_condition_columns.
  - rewrite (apply_condition_ineffective df c Heff).
    unfold mbind, outcome_bind. apply IH.
Qed.

(** X4: [filter_data] passes over every condition that lacks one of the
    keys [column], [operator], [value], names a column the dataset does not
    have, or carries an operator other than the six it knows: the registry
    after the call, and whether the call answers with an error, are those
    of the call with the remaining conditions only. *)
Theorem filter_data_ignores_ineffective_conditions w args s name df conditions :
  a_name args = Some name →
  datasets s !! name = Some df →
  a_conditions args = Some conditions →
  let all := handle_call_tool w "filter_data" args s in
  let kept :=
    handle_call_tool w "filter_data"
      (with_conditions args (List.filter (effective df) conditions)) s in
  all.2 = kept.2 ∧ is_error <$> all.1 = is_error <$> kept.1.
Proof.
  intros Hn Hdf Hc all kept. subst all kept. unfold handle_call_tool.
  destruct (PANDAS_AVAILABLE w); simpl; [|done].
  rewrite !dispatch_filter_data.
  unfold filter_data, with_conditions, mbind, M_bind, mret, M_ret, lift, getitem,
    lookup_dataset, store_dataset, copy.
  rewrite Hn, Hc. simpl. destruct (a_new_name args); simpl; [|done].
  rewrite Hdf. rewrite (apply_conditions_effective conditions df).
  by destruct (apply_conditions df (List.filter (effective df) conditions)).
Qed.

Lemma filter_data_ignores_ineffective_conditions_witness :
  let noise := [{| c_column := Some "age"; c_operator := Some "~=";
                   c_value := Some (JNum 1) |};
                {| c_column := Some "age"; c_operator := None;
                   c_value := Some (JNum 1) |}] in
  (handle_call_tool sample_world "filter_data"
     (filter_request "staff" (noise ++ [older_than_28]) "seniors") sample_server).2
  = (handle_call_tool sample_world "filter_data"
       (filter_request "staff" [older_than_28] "seniors") sample_server).2.
Proof.
  intros noise.
  destruct (filter_data_ignores_ineffective_conditions sample_world
              (filter_request "staff" (noise ++ [older_than_28]) "seniors")
              sample_server "staff" employees (noise ++ [older_than_28])
              eq_refl eq_refl eq_refl) as [Hstate _].
  exact Hstate.
Defined.

(** ** Filtering in two steps *)

Lemma apply_conditions_app first : ∀ df second,
  apply_conditions df (first ++ second)
  = (d ← apply_conditions df first; apply_conditions d second).
Proof.
  induction first as [|c first IH]; intros df second; simpl; [done|].
  destruct (apply_condition df c) as [d1|]; simpl; [|done]. apply IH.
Qed.

(** X5: filtering in two calls is filtering once by all the conditions:
    when the first call succeeds, the second call, made on the dataset the
    first registered, answers with an error exactly when the single call
    with both lists of conditions does, and otherwise both leave the same
    table under the final name. *)
Theorem filter_data_in_two_steps w s name df first second middle final
    args1 args2 args12 :
  PANDAS_AVAILABLE w = true →
  datasets s !! name = Some df →
  a_name args1 = Some name → a_conditions args1 = Some first →
  a_new_name args1 = Some middle →
  a_name args2 = Some middle → a_conditions args2 = Some second →
  a_new_name args2 = Some final →
  a_name args12 = Some name → a_conditions args12 = Some (first ++ second) →
  a_new_name args12 = Some final →
  let step1 := handle_call_tool w "filter_data" args1 s in
  let step2 := handle_call_tool w "filter_data" args2 step1.2 in
  let single := handle_call_tool w "filter_data" args12 s in
  is_error <$> step1.1 = [false] →
  is_error <$> step2.1 = is_error <$> single.1 ∧
  (is_error <$> single.1 = [false] →
   datasets step2.2 !! final = datasets single.2 !! final).
Proof.
  intros Hp Hdf Hn1 Hc1 Hnn1 Hn2 Hc2 Hnn2 Hn12 Hc12 Hnn12 step1 step2 single.
  subst step1 step2 single.
  destruct (apply_conditions df first) as [d1|e] eqn:Hfirst.
  2: { rewrite handle_call_tool_answer, dispatch_filter_data by done.
       unfold filter_data, mbind, M_bind, mret, M_ret, lift, getitem,
         lookup_dataset, store_dataset, copy.
       rewrite Hn1, Hc1, Hnn1. simpl. rewrite Hdf, Hfirst. done. }
  rewrite (filter_data_success w args1 s name first middle df d1) by done.
  intros _. simpl.
  set (s1 := {| datasets := <[middle := d1]> (datasets s);
                analysis_history := analysis_history s |}).
  assert (Hs1 : datasets s1 !! middle = Some d1)
    by (simpl; by rewrite lookup_insert_eq).
  pose proof (apply_conditions_app first df second) as Happ.
  rewrite Hfirst in Happ. simpl in Happ.
  destruct (apply_conditions d1 second) as [d2|e] eqn:Hsecond.
  - rewrite (filter_data_success w args2 s1 middle second final d1 d2) by done.
    rewrite (filter_data_success w args12 s name (first ++ second) final df d2)
      by done.
    simpl. split; [done|]. intros _. by rewrite !lookup_insert_eq.
  - rewrite !handle_call_tool_answer, !dispatch_filter_data by done.
    unfold filter_data, mbind, M_bind, mret, M_ret, lift, getitem,
      lookup_dataset, store_dataset, copy.
    rewrite Hn2, Hc2, Hnn2, Hn12, Hc12, Hnn12. subst s1. simpl.
    rewrite lookup_insert_eq, Hdf, Hsecond, Happ. simpl. split; [done|]. done.
Qed.

Lemma filter_data_in_two_steps_witness :
  let well_paid := {| c_column := Some "salary"; c_operator := Some ">=";
                      c_value := Some (JNum 65000) |} in
  datasets
    (handle_call_tool sample_world "filter_data"
       (filter_request "seniors" [well_paid] "chosen")
       (handle_call_tool sample_world "filter_data"
          (filter_request "staff" [older_than_28] "seniors") sample_server).2).2
  !! "chosen"
  = datasets
      (handle_call_tool sample_world "filter_data"
         (filter_request "staff" [older_than_28; well_paid] "chosen")
         sample_server).2
    !! "chosen".
Proof.
  intros well_paid.
  destruct (filter_data_in_two_steps sample_world sample_server "staff" employees
              [older_than_28] [well_paid] "seniors" "chosen"
              (filter_request "staff" [older_than_28] "seniors")
              (filter_request "seniors" [well_paid] "chosen")
              (filter_request "staff" [older_than_28; well_paid] "chosen")
              eq_refl eq_refl eq_refl eq_refl eq_refl eq_refl eq_refl eq_refl
              eq_refl eq_refl eq_refl eq_refl) as [_ Hsame].
  apply Hsame. reflexivity.
Defined.

(** ** Loading, then looking *)

(** X6: a dataset that [load_dataset] has just loaded is what
    [dataset_info] describes: after a successful load from a [.csv] or
    [.json] file the registry holds the parsed table under the given name,
    replacing whatever was there, every other name keeps its dataset, and
    [dataset_info] answers with the row and column counts and the column
    names of the parsed table. *)
Theorem load_dataset_then_dataset_info w args s path name df args' :
  PANDAS_AVAILABLE w = true →
  a_path args = Some path →
  a_name args = Some name →
  os_path_exists w path = true →
  (endswith path ".csv" = true ∧
   pd_read_csv w path (default "," (a_delimiter args)) = Return df)
  ∨ (endswith path ".csv" = false ∧ endswith path ".json" = true ∧
     pd_read_json w path = Return df) →
  a_name args' = Some name →
  let loaded := handle_call_tool w "load_dataset" args s in
  loaded.1 = [Loaded name (shape df) (columns df) (memory_usage w df / 1024)%Q] ∧
  datasets loaded.2 = <[name := df]> (datasets s) ∧
  (∀ other, other ≠ name → datasets loaded.2 !! other = datasets s !! other) ∧
  ∃ info,
    handle_call_tool w "dataset_info" args' loaded.2
    = ([DatasetInformation info], loaded.2) ∧
    i_shape info = (len df, length (columns df)) ∧
    i_names info = columns df.
Proof.
  intros Hp Hpath Hn Hex Hread Hn' loaded.
  assert (Hload : loaded
                  = ([Loaded name (shape df) (columns df) (memory_usage w df / 1024)%Q],
                     {| datasets := <[name := df]> (datasets s);
                        analysis_history :=
                          analysis_history s
                          ++ [LoadRecord name (datetime_now w) (shape df)
                                (columns df)] |})).
  { subst loaded. rewrite handle_call_tool_answer by done.
    change (dispatch w "load_dataset" args) with (load_dataset w args).
    unfold load_dataset, load_finish, mbind, M_bind, mret, M_ret, lift, getitem,
      store_dataset, history_append.
    rewrite Hpath, Hn. simpl. rewrite Hex. simpl.
    destruct Hread as [[-> ->]|(-> & -> & ->)]; done. }
  rewrite Hload. simpl. split; [done|]. split; [done|]. split.
  { intros other Hne. by rewrite lookup_insert_ne. }
  eexists. split.
  - rewrite handle_call_tool_answer by done.
    change (dispatch w "dataset_info" args') with (dataset_info w args').
    unfold dataset_info, mbind, M_bind, mret, M_ret, lift, getitem, lookup_dataset.
    rewrite Hn'. simpl. rewrite lookup_insert_eq. reflexivity.
  - simpl. unfold shape, len, columns. by rewrite length_map.
Qed.

Lemma load_dataset_then_dataset_info_witness :
  ∃ info,
    handle_call_tool sample_world "dataset_info" (named "staff")
      (handle_call_tool sample_world "load_dataset"
         (load_request "employees.csv" "staff") empty_server).2
    = ([DatasetInformation info],
       (handle_call_tool sample_world "load_dataset"
          (load_request "employees.csv" "staff") empty_server).2) ∧
    i_shape info = (4, 4)%nat.
Proof.
  destruct (load_dataset_then_dataset_info sample_world
              (load_request "employees.csv" "staff") empty_server
              "employees.csv" "staff" employees (named "staff")
              eq_refl eq_refl eq_refl eq_refl (or_introl (conj eq_refl eq_refl))
              eq_refl) as (_ & _ & _ & info & Hinfo & Hshape & _).
  exists info. split; [exact Hinfo|]. rewrite Hshape. reflexivity.
Defined.

(** ** Insights on empty tables and unknown focus *)



(** what [generate_insights] does with the insights it computed *)
Lemma generate_insights_run w args s name df :
  PANDAS_AVAILABLE w = true →
  a_name args = Some name →
  datasets s !! name = Some df →
  handle_call_tool w "generate_insights" args s
  = match insights_of w df (default "overview" (a_focus args)) with
    | Return lines =>
        ([Insights name lines],
         {| datasets := datasets s;
            analysis_history :=
              analysis_history s
              ++ [InsightsRecord name (default "overview" (a_focus args))
                    (datetime_now w)] |})
    | Raise e => ([ErrorText e], s)
    end.
Proof.
  intros Hp Hn Hdf. rewrite handle_call_tool_answer by done.
  change (dispatch w "generate_insights" args) with (generate_insights w args).
  unfold generate_insights, mbind, M_bind, mret, M_ret, lift, getitem,
    lookup_dataset, history_append.
  rewrite Hn. simpl. rewrite Hdf.
  by destruct (insights_of w df (default "overview" (a_focus args))).
Qed.




(** X8: a focus outside [overview], [outliers], [patterns],
    [recommendations] and [all] is not refused: on an existing dataset the
    call answers with an empty list of insights and still appends its
    record, carrying that focus, to the history. *)
Theorem generate_insights_with_unknown_focus w args s name df focus :
  PANDAS_AVAILABLE w = true →
  a_name args = Some name →
  datasets s !! name = Some df →
  a_focus args = Some focus →
  str_in focus ["overview"; "outliers"; "patterns"; "recommendations"; "all"]
  = false →
  handle_call_tool w "generate_insights" args s
  = ([Insights name []],
     {| datasets := datasets s;
        analysis_history :=
          analysis_history s ++ [InsightsRecord name focus (datetime_now w)] |}).
Proof.
  intros Hp Hn Hdf Hf Hunknown.
  rewrite (generate_insights_run w args s name df) by done. rewrite Hf. simpl.
  unfold str_in in Hunknown. simpl in Hunknown.
  apply orb_false_elim in Hunknown as [Ho Hunknown].
  apply orb_false_elim in Hunknown as [Hu Hunknown].
  apply orb_false_elim in Hunknown as [Hpa Hunknown].
  apply orb_false_elim in Hunknown as [Hr Hunknown].
  apply orb_false_elim in Hunknown as [Ha _].
  unfold insights_of, str_in. simpl. by rewrite Ho, Hu, Hpa, Hr, Ha.
Qed.

Lemma generate_insights_with_unknown_focus_witness :
  (handle_call_tool sample_world "generate_insights"
     (insights_request "staff" "summary") sample_server).1
  = [Insights "staff" []].
Proof.
  exact (f_equal fst
           (generate_insights_with_unknown_focus sample_world
              (insights_request "staff" "summary") sample_server "staff"
              employees "summary" eq_refl eq_refl eq_refl eq_refl eq_refl)).
Defined.

(** ** Correlation pairs and the threshold *)

Lemma find_correlations_run w args s name df m :
  PANDAS_AVAILABLE w = true →
  a_name args = Some name →
  datasets s !! name = Some df →
  df_corr w (select_dtypes_number df) (default "pearson" (a_method args)) = Return m →
  handle_call_tool w "find_correlations" args s
  = ([Correlations (default "pearson" (a_method args)) name
        (default (1 # 2)%Q (a_threshold args))
        (sorted_reverse (high_corr m (default (1 # 2)%Q (a_threshold args))))
        (round_matrix m)], s).
Proof.
  intros Hp Hn Hdf Hcorr. rewrite handle_call_tool_answer by done.
  change (dispatch w "find_correlations" args) with (find_correlations w args).
  unfold find_correlations, mbind, M_bind, lift, getitem, lookup_dataset.
  rewrite Hn. simpl. rewrite Hdf. simpl. by rewrite Hcorr.
Qed.

Lemma high_corr_entry_threshold m low high ij p :
  (low <= high)%Q →
  high_corr_entry m high ij = Some p → high_corr_entry m low ij = Some p.
Proof.
  unfold high_corr_entry. intros Hle.
  destruct (iloc m ij.1 ij.2) as [c|]; [|done].
  destruct (Qle_bool high (Qabs c)) eqn:Hhigh; [|done].
  apply Qle_bool_iff in Hhigh.
  assert (Hlow : Qle_bool low (Qabs c) = true)
    by (apply Qle_bool_iff; by eapply Qle_trans).
  by rewrite Hlow.
Qed.

Lemma omap_length_le {A B} (f g : A → option B) (l : list A) :
  (∀ a b, f a = Some b → g a = Some b) →
  (length (omap f l) ≤ length (omap g l))%nat.
Proof.
  intros Hfg. induction l as [|a l IH]; simpl; [done|].
  destruct (f a) as [b|] eqn:Hf.
  - rewrite (Hfg a b Hf). simpl. apply le_n_S, IH.
  - destruct (g a); simpl; [apply le_S, IH|apply IH].
Qed.

(** X9: raising the threshold of [find_correlations] only removes pairs:
    on the same dataset and method, every pair reported with the higher
    threshold is reported, with the same coefficient and label, with the
    lower one, and the list does not get longer. *)
Theorem find_correlations_threshold_monotone w s name df m args_low args_high
    low high :
  PANDAS_AVAILABLE w = true →
  datasets s !! name = Some df →
  a_name args_low = Some name → a_name args_high = Some name →
  a_method args_low = a_method args_high →
  df_corr w (select_dtypes_number df) (default "pearson" (a_method args_low))
  = Return m →
  a_threshold args_low = Some low → a_threshold args_high = Some high →
  (low <= high)%Q →
  ∃ pairs_low pairs_high,
    (handle_call_tool w "find_correlations" args_low s).1
    = [Correlations (default "pearson" (a_method args_low)) name low pairs_low
         (round_matrix m)] ∧
    (handle_call_tool w "find_correlations" args_high s).1
    = [Correlations (default "pearson" (a_method args_low)) name high pairs_high
         (round_matrix m)] ∧
    (∀ p, p ∈ pairs_high → p ∈ pairs_low) ∧
    (length pairs_high ≤ length pairs_low)%nat.
Proof.
  intros Hp Hdf Hnl Hnh Hmethod Hcorr Hlow Hhigh Hle.
  exists (sorted_reverse (high_corr m low)), (sorted_reverse (high_corr m high)).
  rewrite (find_correlations_run w args_low s name df m) by done.
  rewrite (find_correlations_run w args_high s name df m)
    by (by rewrite <- ?Hmethod).
  rewrite Hlow, Hhigh, <- Hmethod. simpl. repeat split.
  - intros p. rewrite !sorted_reverse_Permutation. unfold high_corr.
    rewrite !list_elem_of_omap. intros (ij & Hij & Hentry). exists ij.
    split; [done|]. by eapply high_corr_entry_threshold.
  - rewrite !sorted_reverse_Permutation. apply omap_length_le.
    intros ij p. by apply high_corr_entry_threshold.
Qed.

Lemma find_correlations_threshold_monotone_witness :
  ∃ pairs_low pairs_high,
    (handle_call_tool sample_world "find_correlations"
       (correlations_request "staff" (1 # 2)) sample_server).1
    = [Correlations "pearson" "staff" (1 # 2) pairs_low (round_matrix sample_matrix)] ∧
    (handle_call_tool sample_world "find_correlations"
       (correlations_request "staff" (999 # 1000)) sample_server).1
    = [Correlations "pearson" "staff" (999 # 1000) pairs_high
         (round_matrix sample_matrix)] ∧
    (length pairs_high ≤ length pairs_low)%nat.
Proof.
  destruct (find_correlations_threshold_monotone sample_world sample_server
              "staff" employees sample_matrix
              (correlations_request "staff" (1 # 2))
              (correlations_request "staff" (999 # 1000)) (1 # 2) (999 # 1000)
              eq_refl eq_refl eq_refl eq_refl eq_refl eq_refl eq_refl eq_refl)
    as (pairs_low & pairs_high & Hlow & Hhigh & _ & Hlen).
  { discriminate. }
  by exists pairs_low, pairs_high.
Defined.

(** ** Counts that dataset_info and data_quality_check report *)

Lemma filter_split_length {A} (f : A → bool) (l : list A) :
  (length (List.filter f l) + length (List.filter (fun a => negb (f a)) l)
   = length l)%nat.
Proof.
  induction l as [|a l IH]; simpl; [done|]. destruct (f a); simpl; lia.
Qed.

Lemma distinct_cells_length cs : ∀ seen,
  (length (distinct_cells seen cs)
   ≤ length seen + length (List.filter (fun c => negb (is_null c)) cs))%nat.
Proof.
  induction cs as [|c cs IH]; intros seen; simpl; [lia|].
  destruct (is_null c); simpl.
  - apply IH.
  - destruct (existsb (cell_eqb c) seen).
    + etrans; [apply IH|]. lia.
    + etrans; [apply IH|]. rewrite length_app. simpl. lia.
Qed.

(** distinct values and missing values of a column share its rows *)
Lemma nunique_null_count df i : (null_count df i + nunique df i ≤ len df)%nat.
Proof.
  unfold null_count, nunique, len.
  pose proof (distinct_cells_length (col_values df i) []) as Hd.
  pose proof (filter_split_length is_null (col_values df i)) as Hs.
  unfold col_values in *. rewrite length_map in Hs. simpl in Hd. lia.
Qed.

Lemma Forall2_zip_maps {A B C} (R : A * B → A * C → Prop)
    (f : nat → B) (g : nat → C) (cs : list A) : ∀ l,
  (∀ c x, R (c, f x) (c, g x)) →
  Forall2 R (zip cs (map f l)) (zip cs (map g l)).
Proof.
  induction cs as [|c cs IH]; intros [|x l] HR; simpl; try constructor; auto.
Qed.

(** X10: the counts of [dataset_info] fit the table: the shape is the
    number of rows and of columns, the sample is made of the first rows, at
    most five, and column by column the null count and the distinct count
    are reported under the same name and add up to at most the number of
    rows. *)
Theorem dataset_info_counts w args s name df :
  PANDAS_AVAILABLE w = true →
  a_name args = Some name →
  datasets s !! name = Some df →
  ∃ info,
    handle_call_tool w "dataset_info" args s = ([DatasetInformation info], s) ∧
    i_shape info = (len df, length (columns df)) ∧
    i_sample_data info = take 5 (df_rows df) ∧
    (length (i_sample_data info) ≤ 5)%nat ∧
    Forall2 (fun nulls uniques =>
               nulls.1 = uniques.1 ∧ (nulls.2 + uniques.2 ≤ len df)%nat)
            (i_null_counts info) (i_unique_counts info).
Proof.
  intros Hp Hn Hdf. eexists. split.
  - rewrite handle_call_tool_answer by done.
    change (dispatch w "dataset_info" args) with (dataset_info w args).
    unfold dataset_info, mbind, M_bind, mret, M_ret, lift, getitem, lookup_dataset.
    rewrite Hn. simpl. rewrite Hdf. reflexivity.
  - simpl. repeat split.
    + unfold shape, len, columns. by rewrite length_map.
    + rewrite length_take. lia.
    + unfold isnull_sum. apply Forall2_zip_maps. intros c i. simpl.
      split; [done|]. apply nunique_null_count.
Qed.

Lemma dataset_info_counts_witness :
  ∃ info,
    handle_call_tool sample_world "dataset_info" (named "payroll") payroll_server
    = ([DatasetInformation info], payroll_server) ∧
    i_shape info = (4, 2)%nat.
Proof.
  destruct (dataset_info_counts sample_world (named "payroll") payroll_server
              "payroll" payroll eq_refl eq_refl eq_refl)
    as (info & Hcall & Hshape & _).
  exists info. split; [exact Hcall|]. rewrite Hshape. reflexivity.
Defined.

Lemma existsb_filter_length {A} (f : A → bool) (l : list A) :
  existsb f l = false ↔ length (List.filter f l) = 0%nat.
Proof.
  induction l as [|a l IH]; simpl; [done|].
  destruct (f a); simpl; [split; [done|lia]|exact IH].
Qed.

Lemma list_sum_zero (l : list nat) : list_sum l = 0%nat ↔ ∀ k, In k l → k = 0%nat.
Proof.
  induction l as [|x l IH]; simpl.
  - split; [by intros _ k []|done].
  - split.
    + intros H k [<-|Hk]; [lia|]. apply IH; [lia|done].
    + intros H. rewrite (H x) by auto. simpl. apply IH. auto.
Qed.

Lemma filter_nil_iff {A} (f : A → bool) (l : list A) :
  List.filter f l = [] ↔ ∀ a, In a l → f a = false.
Proof.
  induction l as [|a l IH]; simpl.
  - split; [by intros _ a []|done].
  - destruct (f a) eqn:Hf.
    + split; [done|]. intros H. specialize (H a (or_introl eq_refl)). congruence.
    + rewrite IH. split; [intros H b [<-|Hb]; auto|auto].
Qed.

Lemma duplicated_from_length rs : ∀ seen,
  length (duplicated_from seen rs) = length rs.
Proof. induction rs as [|r rs IH]; intros seen; simpl; [done|]. by rewrite IH. Qed.

Lemma count_true_le (bs : list bool) : (count_true bs ≤ length bs)%nat.
Proof.
  unfold count_true. induction bs as [|b bs IH]; simpl; [done|].
  destruct b; simpl; lia.
Qed.

(** the first row is never a duplicate *)
Lemma duplicated_below_rows df :
  (0 < len df)%nat → (count_true (duplicated df) < len df)%nat.
Proof.
  unfold duplicated, len. destruct (df_rows df) as [|r rs]; simpl; [lia|].
  intros _. unfold count_true. simpl.
  pose proof (count_true_le (duplicated_from [r] rs)) as Hle.
  unfold count_true in Hle. rewrite duplicated_from_length in Hle. lia.
Qed.

Lemma filter_length_le_sum {A} (g : A → bool) (h : A → nat) (l : list A) :
  (∀ a, g a = true → (1 ≤ h a)%nat) →
  (length (List.filter g l) ≤ list_sum (map h l))%nat.
Proof.
  intros Hgh. induction l as [|a l IH]; simpl; [done|].
  destruct (g a) eqn:Hg; simpl; [specialize (Hgh a Hg)|]; lia.
Qed.

(** X11: the figures of a [data_quality_check] report agree with one another:
    no column is listed as having missing values exactly when the total of
    missing values is zero, the columns listed are at most as many as the
    missing values, and in a table with rows the duplicate rows are fewer
    than the rows. *)
Theorem data_quality_report_is_coherent w args s name df :
  PANDAS_AVAILABLE w = true →
  a_name args = Some name →
  datasets s !! name = Some df →
  ∃ report,
    handle_call_tool w "data_quality_check" args s = ([DataQuality report], s) ∧
    total_rows report = len df ∧
    (columns_with_missing report = [] ↔ total_missing_values report = 0%nat) ∧
    (length (columns_with_missing report) ≤ total_missing_values report)%nat ∧
    ((0 < total_rows report)%nat →
     (duplicate_rows report < total_rows report)%nat).
Proof.
  intros Hp Hn Hdf. exists (quality_report name df). split.
  { rewrite handle_call_tool_answer by done.
    change (dispatch w "data_quality_check" args) with (data_quality_check args).
    unfold data_quality_check, mbind, M_bind, mret, M_ret, lift, getitem,
      lookup_dataset.
    rewrite Hn. simpl. by rewrite Hdf. }
  simpl. split; [done|]. split; [|split].
  - unfold isnull_sum. rewrite list_sum_zero. split.
    + intros Hnone%map_eq_nil k (i & <- & Hi)%in_map_iff.
      rewrite filter_nil_iff in Hnone.
      by apply existsb_filter_length, Hnone.
    + intros Hzero.
      assert (Hnone : List.filter
                        (fun i => existsb is_null (col_values df i))
                        (seq 0 (length (df_columns df))) = []);
        [|by rewrite Hnone].
      apply filter_nil_iff. intros i Hi. apply existsb_filter_length.
      apply Hzero, in_map_iff. by exists i.
  - rewrite length_map. unfold isnull_sum. apply filter_length_le_sum.
    intros i Hex. unfold null_count.
    destruct (length (List.filter is_null (col_values df i))) eqn:Hlen; [|lia].
    apply existsb_filter_length in Hlen. congruence.
  - apply duplicated_below_rows.
Qed.

Lemma data_quality_report_is_coherent_witness :
  ∃ report,
    handle_call_tool sample_world "data_quality_check" (named "payroll")
      payroll_server = ([DataQuality report], payroll_server) ∧
    (duplicate_rows report < 4)%nat.
Proof.
  destruct (data_quality_report_is_coherent sample_world (named "payroll")
              payroll_server "payroll" payroll eq_refl eq_refl eq_refl)
    as (report & Hcall & Hrows & _ & _ & Hdup).
  exists report. split; [exact Hcall|].
  rewrite Hrows in Hdup. apply Hdup. vm_compute. lia.
Defined.

(** ** The catalogue and the dispatcher *)

Lemma tools_never_answer_unknown w args s o s' n :
  load_dataset w args s = (o, s') ∨ dataset_info w args s = (o, s') ∨
  calculate_statistics args s = (o, s') ∨ find_correlations w args s = (o, s') ∨
  group_analysis w args s = (o, s') ∨ data_quality_check args s = (o, s') ∨
  generate_insights w args s = (o, s') ∨ export_analysis w args s = (o, s') ∨
  filter_data args s = (o, s') →
  answer o ≠ UnknownTool n.
Proof.
  unfold load_dataset, load_finish, dataset_info, calculate_statistics,
    find_correlations, group_analysis, data_quality_check, generate_insights,
    export_analysis, filter_data.
  intros [H|[H|[H|[H|[H|[H|[H|[H|H]]]]]]]]; run_M.
Qed.

(** X12: the dispatcher knows exactly the tools of the catalogue: a call
    is answered [Unknown tool: <name>] if and only if [handle_list_tools]
    lists no tool of that name, and the nine names it lists are distinct. *)
Theorem unknown_tool_iff_not_listed w name args s :
  PANDAS_AVAILABLE w = true →
  ((handle_call_tool w name args s).1 = [UnknownTool name]
   ↔ find_tool name = None) ∧
  NoDup (map t_name handle_list_tools).
Proof.
  intros Hp. split; [|by apply (bool_decide_unpack _)].
  rewrite handle_call_tool_answer by done.
  destruct (dispatch w name args s) as [o s'] eqn:Hd. cbn [fst].
  unfold dispatch in Hd. name_cases; subst;
    try (split; [intros [= Hu]|by vm_compute]; exfalso;
         eapply (tools_never_answer_unknown w args s o s'); [|exact Hu];
         eauto 10).
  unfold mret, M_ret in Hd. simplify_eq. split; [intros _|done].
  unfold find_tool, handle_list_tools. cbn [List.find t_name].
  by repeat match goal with
            | H : name ≠ ?b |- context [String.eqb ?b name] =>
                rewrite (proj2 (String.eqb_neq b name)) by congruence
            end.
Qed.

Lemma unknown_tool_iff_not_listed_witness :
  (handle_call_tool sample_world "plot" no_arguments empty_server).1
  = [UnknownTool "plot"].
Proof.
  destruct (unknown_tool_iff_not_listed sample_world "plot" no_arguments
              empty_server eq_refl) as [[_ Hunknown] _].
  apply Hunknown. reflexivity.
Defined.

Lemma has_key_false args :
  (has_key args "path" = false → a_path args = None) ∧
  (has_key args "name" = false → a_name args = None) ∧
  (has_key args "group_by" = false → a_group_by args = None) ∧
  (has_key args "output_path" = false → a_output_path args = None) ∧
  (has_key args "conditions" = false → a_conditions args = None) ∧
  (has_key args "new_name" = false → a_new_name args = None).
Proof.
  unfold has_key. simpl.
  repeat split; intros H%bool_decide_eq_false; by apply eq_None_not_Some.
Qed.

Lemma has_key_None args :
  (a_path args = None → has_key args "path" = false) ∧
  (a_name args = None → has_key args "name" = false) ∧
  (a_group_by args = None → has_key args "group_by" = false) ∧
  (a_output_path args = None → has_key args "output_path" = false) ∧
  (a_conditions args = None → has_key args "conditions" = false) ∧
  (a_new_name args = None → has_key args "new_name" = false).
Proof. unfold has_key. simpl. repeat split; by intros ->. Qed.

(** X13: the handlers read with [arguments[key]] exactly the keys their
    schema declares as required: a call to a listed tool that lacks a
    required key is answered [Error: '<key>'], naming a required key that
    is missing, and changes nothing on the server. *)
Theorem missing_required_key w name args s tool key :
  PANDAS_AVAILABLE w = true →
  find_tool name = Some tool →
  In key (t_required tool) →
  has_key args key = false →
  ∃ missing,
    In missing (t_required tool) ∧ has_key args missing = false ∧
    handle_call_tool w name args s = ([ErrorText (KeyError missing)], s).
Proof.
  intros Hp Htool Hkey Hmissing.
  destruct (has_key_false args) as (Hpath & Hname & Hgroup & Hout & Hconds & Hnew).
  destruct (has_key_None args) as (Npath & Nname & Ngroup & Nout & Nconds & Nnew).
  rewrite handle_call_tool_answer by done.
  unfold find_tool, handle_list_tools in Htool. cbn [List.find t_name] in Htool.
  repeat match type of Htool with
         | context [String.eqb ?b name] =>
             let E := fresh "E" in
             destruct (String.eqb b name) eqn:E;
             [apply String.eqb_eq in E; subst name; injection Htool as <-
             |clear E]
         end;
    try done.
  all: cbn [t_required In] in Hkey |- *.
  all: repeat (destruct Hkey as [<-|Hkey]); try done.
  all: pose proof Hmissing as Hm;
    first [apply Hpath in Hm | apply Hname in Hm | apply Hgroup in Hm
          | apply Hout in Hm | apply Hconds in Hm | apply Hnew in Hm].
  all: clear Hpath Hname Hgroup Hout Hconds Hnew.
  all: match goal with
       | |- context [dispatch ?w0 ?n ?a] =>
           let d := eval cbv [dispatch String.eqb Ascii.eqb Bool.eqb] in
                      (dispatch w0 n a) in
           change (dispatch w0 n a) with d
       end.
  all: unfold load_dataset, dataset_info, calculate_statistics, find_correlations,
         group_analysis, data_quality_check, generate_insights, export_analysis,
         filter_data, mbind, M_bind, mret, M_ret, lift, getitem.
  all: rewrite Hm.
  all: repeat match goal with
              | |- context [a_path ?a] => destruct (a_path a) eqn:?
              | |- context [a_name ?a] => destruct (a_name a) eqn:?
              | |- context [a_group_by ?a] => destruct (a_group_by a) eqn:?
              | |- context [a_output_path ?a] => destruct (a_output_path a) eqn:?
              | |- context [a_conditions ?a] => destruct (a_conditions a) eqn:?
              | |- context [a_new_name ?a] => destruct (a_new_name a) eqn:?
              end.
  all: first [ exists "path"; split; [tauto|split; [auto|reflexivity]]
             | exists "name"; split; [tauto|split; [auto|reflexivity]]
             | exists "group_by"; split; [tauto|split; [auto|reflexivity]]
             | exists "output_path"; split; [tauto|split; [auto|reflexivity]]
             | exists "conditions"; split; [tauto|split; [auto|reflexivity]]
             | exists "new_name"; split; [tauto|split; [auto|reflexivity]] ].
Qed.

Lemma missing_required_key_witness :
  ∃ missing,
    In missing ["name"; "conditions"; "new_name"] ∧
    handle_call_tool sample_world "filter_data" (named "staff") sample_server
    = ([ErrorText (KeyError missing)], sample_server).
Proof.
  destruct (missing_required_key sample_world "filter_data" (named "staff")
              sample_server
              {| t_name := "filter_data";
                 t_properties := [prop "name" "string"; prop "conditions" "array";
                                  prop "new_name" "string"];
                 t_required := ["name"; "conditions"; "new_name"] |}
              "new_name" eq_refl eq_refl)
    as (missing & Hin & _ & Hcall).
  { simpl. auto. }
  { reflexivity. }
  by exists missing.
Defined.

(** ** Resources *)


Lemma last_segment_whole s : contains_slash s = false → last_segment s = s.
Proof.
  destruct s as [|c s]; simpl; [done|].
  intros [Hc ->]%orb_false_elim. by rewrite Hc.
Qed.













(** ** Order statistics *)

















(** ** A session of calls *)

Lemma call_effect w name args s :
  let s' := (handle_call_tool w name args s).2 in
  (∃ added, analysis_history s' = analysis_history s ++ added
            ∧ (length added ≤ 1)%nat) ∧
  (datasets s' = datasets s
   ∨ ∃ key df, assigned_key (name, args) = Some key
               ∧ datasets s' = <[key := df]> (datasets s)).
Proof.
  simpl.
  assert (Hsame : ∀ s' : Server, s' = s →
    (∃ added, analysis_history s' = analysis_history s ++ added
              ∧ (length added ≤ 1)%nat) ∧
    (datasets s' = datasets s
     ∨ ∃ key df, assigned_key (name, args) = Some key
                 ∧ datasets s' = <[key := df]> (datasets s))).
  { intros ? ->. split; [|by left]. exists []. rewrite app_nil_r. split; [done|simpl; lia]. }
  destruct (handle_call_tool_cases w name args s) as [Hp|(o & s1 & Hd & Ha)].
  { rewrite Hp. by apply Hsame. }
  rewrite Ha. simpl.
  apply dispatch_effect in Hd
    as [[-> Hd]|[[-> Hd]|[[-> Hd]|(_ & _ & _ & ->)]]]; [| | |by apply Hsame].
  - apply load_dataset_effect in Hd
      as [[_ ->]|(n & df & Hn & _ & ->)]; [by apply Hsame|]. simpl. split.
    + eexists [_]; split; [done|simpl; lia].
    + right. by exists n, df.
  - apply generate_insights_effect in Hd
      as [[_ ->]|(n & df & lines & _ & _ & _ & _ & ->)]; [by apply Hsame|].
    simpl. split; [eexists [_]; split; [done|simpl; lia]|by left].
  - apply filter_data_effect in Hd
      as [[_ ->]|(n & c & n' & df & df' & _ & _ & Hn' & _ & _ & _ & ->)];
      [by apply Hsame|].
    simpl. split.
    + exists []. rewrite app_nil_r. split; [done|simpl; lia].
    + right. by exists n', df'.
Qed.

(** X18: the analysis history only grows. Over any sequence of calls the
    history the server started with stays at the front, at most one
    record is added per call, and the resource data://analysis_history
    read afterwards returns exactly that list. *)
Theorem session_history_is_append_only w calls s :
  ∃ added,
    analysis_history (handle_calls w calls s) = analysis_history s ++ added ∧
    (length added ≤ length calls)%nat ∧
    handle_read_resource w (handle_calls w calls s) "data://analysis_history"
    = Return (AnalysisHistory (analysis_history s ++ added)).
Proof.
  assert (H : ∃ added,
    analysis_history (handle_calls w calls s) = analysis_history s ++ added ∧
    (length added ≤ length calls)%nat).
  { revert s. induction calls as [|[name args] calls IH]; intros s; simpl.
    - exists []. by rewrite app_nil_r.
    - destruct (call_effect w name args s) as [(a1 & H1 & Hl1) _].
      destruct (IH (handle_call_tool w name args s).2) as (a2 & H2 & Hl2).
      exists (a1 ++ a2). rewrite H2, H1, length_app, app_assoc. split; [done|lia]. }
  destruct H as (added & H & Hl). exists added. repeat split; [done..|].
  unfold handle_read_resource. simpl. by rewrite H.
Qed.

(** X19: no tool removes a dataset. A name that is registered stays
    registered over any sequence of calls, whatever the calls are and
    whether they succeed or fail. *)
Theorem session_keeps_registered_names w calls s name :
  is_Some (datasets s !! name) →
  is_Some (datasets (handle_calls w calls s) !! name).
Proof.
  revert s. induction calls as [|[tool args] calls IH]; intros s Hs; simpl; [done|].
  apply IH.
  destruct (call_effect w tool args s) as [_ [->|(key & df & _ & ->)]]; [done|].
  rewrite lookup_insert_is_Some. destruct (decide (key = name)); auto.
Qed.

Lemma session_keeps_registered_names_witness :
  is_Some (datasets
             (handle_calls sample_world
                [("filter_data", filter_request "staff" [older_than_28] "seniors");
                 ("load_dataset", named "staff");
                 ("plot", no_arguments)]
                sample_server) !! "staff").
Proof.
  apply (session_keeps_registered_names sample_world _ sample_server "staff").
  by exists employees.
Defined.

(** X20: a dataset is replaced only by a call that assigns its name. Over
    a sequence of calls in which no [load_dataset] has this name as its
    name and no [filter_data] has it as its new_name, the registry holds
    under the name what it held before (or nothing, as before). *)
Theorem session_changes_assigned_names_only w calls s name :
  Forall (λ call, assigned_key call ≠ Some name) calls →
  datasets (handle_calls w calls s) !! name = datasets s !! name.
Proof.
  intros Hcalls. revert s.
  induction Hcalls as [|[tool args] calls Hcall _ IH]; intros s; simpl; [done|].
  rewrite IH.
  destruct (call_effect w tool args s) as [_ [->|(key & df & Hkey & ->)]]; [done|].
  apply lookup_insert_ne. congruence.
Qed.

Lemma session_changes_assigned_names_only_witness :
  datasets
    (handle_calls sample_world
       [("filter_data", filter_request "staff" [older_than_28] "seniors");
        ("generate_insights", insights_request "staff" "overview");
        ("load_dataset", named "other")]
       sample_server) !! "staff"
  = datasets sample_server !! "staff".
Proof.
  apply (session_changes_assigned_names_only sample_world).
  repeat constructor; by vm_compute.
Defined.

(** ** Export in a format the branch does not know *)

(** X21: [export_analysis] with a format other than csv, json and html
    writes no file and still answers that the export succeeded, naming
    that format: the answer does not depend on the file writer at all. *)
Theorem export_analysis_with_unknown_format w args s name path format df :
  PANDAS_AVAILABLE w = true →
  a_name args = Some name → a_output_path args = Some path →
  a_format args = Some format →
  format ≠ "csv" → format ≠ "json" → format ≠ "html" →
  datasets s !! name = Some df →
  mkdir_parent w path = Return tt →
  handle_call_tool w "export_analysis" args s = ([Exported name path format], s).
Proof.
  intros Hp Hn Hpath Hf Hcsv Hjson Hhtml Hdf Hmk.
  rewrite handle_call_tool_answer by done.
  change (dispatch w "export_analysis" args) with (export_analysis w args).
  unfold export_analysis, mbind, M_bind, mret, M_ret, lift, getitem,
    lookup_dataset.
  rewrite Hn, Hpath, Hf. simpl. rewrite Hdf. simpl. rewrite Hmk. simpl.
  apply String.eqb_neq in Hcsv, Hjson, Hhtml. by rewrite Hcsv, Hjson, Hhtml.
Qed.

Lemma export_analysis_with_unknown_format_witness :
  handle_call_tool sample_world "export_analysis"
    {| a_path := None; a_name := Some "staff"; a_delimiter := None;
       a_columns := None; a_include_percentiles := None; a_method := None;
       a_threshold := None; a_group_by := None; a_agg_columns := None;
       a_operations := None; a_focus := None; a_format := Some "xml";
       a_output_path := Some "out/staff.xml"; a_conditions := None;
       a_new_name := None |} sample_server
  = ([Exported "staff" "out/staff.xml" "xml"], sample_server).
Proof.
  by apply (export_analysis_with_unknown_format sample_world _ sample_server
              "staff" "out/staff.xml" "xml" employees).
Defined.
